(** * xformers / hip_fmha: dispatch and argument marshaling of the CK attention kernels

    A shallow embedding of the host-side C++ of
    [xformers/csrc/attention/hip_fmha]: the functions that pick a template
    instantiation, fill in the kernel arguments and launch.  The kernels
    themselves belong to the Composable Kernel library and are not modelled;
    every call that leaves the sources is recorded as an event of a trace. *)

From Stdlib Require Import ZArith List String Bool Lia.
Import ListNotations.
Open Scope Z_scope.

(** ** C++ values *)

Module Cxx.

(** Exceptions.  [runtime_error what] is a [throw std::runtime_error(what)]
    written in the sources.  [foreign_error origin] stands for control
    leaving through code that is not in the sources (a macro of a missing
    header, the tensor framework); [origin] names where it came from.
    [fatal_signal name] is the end of the process by a hardware trap: nothing
    after it runs and nothing catches it. *)
Inductive exn : Type :=
| runtime_error (what : string)
| foreign_error (origin : string)
| fatal_signal (name : string).

(** Device and host pointers are addresses; [nullptr] is address zero. *)
Definition ptr : Type := N.
Definition nullptr : ptr := 0%N.

(** A HIP stream is an opaque handle. *)
Inductive hipStream_t : Type := stream_handle (id : N).

(** [int] and [ck::index_t] are 32-bit two's complement.  [to_int] is the
    conversion of an out-of-range value to [int] (modular since C++20, and
    what the targets do before that).  Signed overflow of [*] is undefined
    in C++; [int_mul] gives the wrapped product the hardware computes. *)
Definition to_int (z : Z) : Z := (z + 2 ^ 31) mod 2 ^ 32 - 2 ^ 31.
Definition int_mul (a b : Z) : Z := to_int (a * b).

(** Conversions to [uint64_t] and from it to [int64_t]. *)
Definition to_uint64 (z : Z) : Z := z mod 2 ^ 64.
Definition to_int64 (z : Z) : Z := (z + 2 ^ 63) mod 2 ^ 64 - 2 ^ 63.

(** A [float] is carried as its IEEE-754 binary32 bit pattern.
    [f32_gt_zero x] is [x > 0.0f]: the sign bit is clear, the value is not
    zero and not a NaN. *)
Definition float : Type := Z.
Definition f32_one : float := 0x3F800000.
Definition f32_gt_zero (x : float) : bool := (0 <? x) && (x <=? 0x7F800000).

(** A [double], likewise, as its binary64 bit pattern. *)
Definition double : Type := Z.

(** [a[i]] on a [std::array]; reading past the end is undefined in C++ and
    reads 0 here. *)
Definition at_ (a : list Z) (i : nat) : Z := nth i a 0.

End Cxx.

Notation "a .[ i ]" := (Cxx.at_ a i) (at level 1, left associativity, format "a .[ i ]").

(** ** Traces

    A computation returns a value or throws, and on the way performs calls
    that leave the sources; these are listed in order.  What such a call
    does is not part of the model: the trace goes on as if it returned. *)

Module Trace.
Import Cxx.

Section Monad.
Context {E : Type}.

Definition M (A : Type) : Type := (list E * (exn + A))%type.

Definition ret {A} (a : A) : M A := ([], inr a).
Definition throw {A} (e : exn) : M A := ([], inl e).
Definition emit (e : E) : M unit := ([e], inr tt).
Definition bind {A B} (m : M A) (k : A -> M B) : M B :=
  match m with
  | (t, inl e) => (t, inl e)
  | (t, inr a) => let (t', r) := k a in (t ++ t', r)
  end.

Definition events {A} (m : M A) : list E := fst m.
Definition result {A} (m : M A) : exn + A := snd m.

(** [m] ended by throwing [e]. *)
Definition throws {A} (m : M A) (e : exn) : Prop := result m = inl e.
(** [m] returned normally. *)
Definition returns {A} (m : M A) : Prop := exists a, result m = inr a.
End Monad.

Arguments M : clear implicits.
End Trace.

Declare Scope fmha_scope.
Delimit Scope fmha_scope with fmha.
Notation "x <- m ;; k" := (Trace.bind m (fun x => k))
  (at level 100, m at next level, right associativity) : fmha_scope.
Notation "m ;;; k" := (Trace.bind m (fun _ => k))
  (at level 100, right associativity) : fmha_scope.

(** ** The switch macros of [ck_tiled_bool_switch.h] *)

Module Switch.

(** Modelled from the spec: the header [ck_tiled_bool_switch.h] with the
    macros [BOOL_SWITCH], [BOOL_SWITCH_2] and [BOOL_SWITCH_3] is not among
    the sources.  The spec describes them as the compile-time boolean switch
    dispatch that selects a specialization from runtime parameters: the body
    runs once, with each constant bound to the value of its condition. *)
Definition BOOL_SWITCH {A} (cond1 : bool) (body : bool -> A) : A :=
  if cond1 then body true else body false.

Definition BOOL_SWITCH_2 {A} (cond1 cond2 : bool) (body : bool -> bool -> A) : A :=
  if cond1 then BOOL_SWITCH cond2 (body true)
  else BOOL_SWITCH cond2 (body false).

Definition BOOL_SWITCH_3 {A} (cond1 cond2 cond3 : bool)
    (body : bool -> bool -> bool -> A) : A :=
  if cond1 then BOOL_SWITCH_2 cond2 cond3 (body true)
  else BOOL_SWITCH_2 cond2 cond3 (body false).

End Switch.

(** The scalar types the kernels are instantiated at. *)
Inductive scalar_type : Type := half_t | bhalf_t.

(** ** Batched backward: [ck_fmha_batched_backward_bp16.cpp] and
       [ck_tiled_fmha_batched_backward_fp16.cpp] *)

Module BatchedBackward.
Import Cxx Trace Switch.

(** The fields of [BatchedBackwardParams] the two dispatchers read.  The
    struct is declared in a header that is not among the sources; the
    dispatchers hand it on by reference, unchanged. *)
Record BatchedBackwardParams : Type := {
  K : Z;
  Kv : Z;
  custom_mask_type : Z;
  has_attn_bias : bool;
  bias_has_grad : bool
}.

(** The calls that leave the two files: one per template instantiation,
    with the arguments it is given. *)
Inductive call : Type :=
| batched_backward_masktype_attnbias_dispatched
    (scalar_t : scalar_type) (mask_type : Z) (attn_bias : bool)
    (param : BatchedBackwardParams) (stream : hipStream_t)
| run_batched_backward_causalmask_attnbias_dispatched
    (scalar_t : scalar_type) (kHasCausalMask : bool) (attn_bias : bool)
    (bias_grad : bool) (MaxK : Z)
    (param : BatchedBackwardParams) (stream : hipStream_t).

Definition invalid_mask_what : string := "Invalid custom_mask_type value".
Definition bias_grad_what : string :=
  "bias_has_grad should be false when has_attn_bias is false!".

Definition batched_backward_bp16 (param : BatchedBackwardParams)
    (stream : hipStream_t) : M call unit :=
  if param.(custom_mask_type) =? 0 then
    if param.(has_attn_bias)
    then emit (batched_backward_masktype_attnbias_dispatched bhalf_t 0 true param stream)
    else emit (batched_backward_masktype_attnbias_dispatched bhalf_t 0 false param stream)
  else if param.(custom_mask_type) =? 1 then
    if param.(has_attn_bias)
    then emit (batched_backward_masktype_attnbias_dispatched bhalf_t 1 true param stream)
    else emit (batched_backward_masktype_attnbias_dispatched bhalf_t 1 false param stream)
  else if param.(custom_mask_type) =? 2 then
    if param.(has_attn_bias)
    then emit (batched_backward_masktype_attnbias_dispatched bhalf_t 2 true param stream)
    else emit (batched_backward_masktype_attnbias_dispatched bhalf_t 2 false param stream)
  else throw (runtime_error invalid_mask_what).

Section Fp16.
(** [FMHA_BWD_HEADDIM_SWITCH] comes from [ck_tiled_headdim_switch.h], which
    is not among the sources.  It is a parameter here: [headdim K Kv] is
    the bucket it binds to [MaxK] before running its body, or [None] when
    no bucket takes the two head dimensions and the body is not run. *)
Variable headdim : Z -> Z -> option Z.

Definition FMHA_BWD_HEADDIM_SWITCH {A} (head_dim1 head_dim2 : Z)
    (body : Z -> M call A) : M call A :=
  match headdim head_dim1 head_dim2 with
  | Some MaxK => body MaxK
  | None => throw (foreign_error "FMHA_BWD_HEADDIM_SWITCH")
  end.

Definition batched_backward_fp16 (param : BatchedBackwardParams)
    (stream : hipStream_t) : M call unit :=
  BOOL_SWITCH_2 param.(has_attn_bias) param.(bias_has_grad)
    (fun HAS_ATTN_BIAS HAS_BIAS_GRAD =>
       if HAS_ATTN_BIAS || negb HAS_BIAS_GRAD then
         FMHA_BWD_HEADDIM_SWITCH param.(K) param.(Kv) (fun MaxK =>
           if param.(custom_mask_type) =? 0 then
             emit (run_batched_backward_causalmask_attnbias_dispatched
                     half_t false HAS_ATTN_BIAS HAS_BIAS_GRAD MaxK param stream)
           else if (param.(custom_mask_type) =? 1) || (param.(custom_mask_type) =? 2) then
             emit (run_batched_backward_causalmask_attnbias_dispatched
                     half_t true HAS_ATTN_BIAS HAS_BIAS_GRAD MaxK param stream)
           else throw (runtime_error invalid_mask_what))
       else throw (runtime_error bias_grad_what)).
End Fp16.

(** The bucket rule the explicit instantiations of the fp16 file suggest
    (32, 64 and 128); used where a concrete switch is needed. *)
Definition headdim_32_64_128 (k kv : Z) : option Z :=
  if (k <=? 32) && (kv <=? 32) then Some 32
  else if (k <=? 64) && (kv <=? 64) then Some 64
  else if (k <=? 128) && (kv <=? 128) then Some 128
  else None.

End BatchedBackward.

(** ** Batched inference: [ck_fmha_batched_infer.h] *)

Module BatchedInfer.
Import Cxx Trace.

(** The fields of [BatchedForwardParams] that [Run] and [RunWithDeviceOp]
    read (the struct is declared in [ck_fmha_params.h], not among the
    sources).  The strides are [std::array]s of four [int]s. *)
Module BatchedForwardParams.
Record t : Type := {
  B : Z;
  num_heads : Z;
  M : Z;
  N : Z;
  K : Z;
  Kv : Z;
  scale : float;
  has_attn_bias : bool;
  q_strides : list Z;
  k_strides : list Z;
  v_strides : list Z;
  out_strides : list Z;
  attn_bias_strides : list Z;
  q_ptr : ptr;
  k_ptr : ptr;
  v_ptr : ptr;
  out_ptr : ptr;
  attn_bias_ptr : ptr
}.
End BatchedForwardParams.
Import BatchedForwardParams.

(** The element-wise operators handed to the device op. *)
Inductive PassThrough : Type := PassThrough_.
Inductive Scale : Type := Scale_ (scale_ : float).

(** What [MakeArgumentPointer] is given, in the order of the call, and the
    workspace pointer that [SetWorkSpacePointer] stores afterwards. *)
Record Argument : Type := {
  p_a : ptr;
  p_b0 : ptr;
  p_b1 : ptr;
  p_c : ptr;
  p_acc0_bias : ptr;
  p_acc1_biases : list ptr;
  a_gs_ms_ks_lengths : list Z;
  a_gs_ms_ks_strides : list Z;
  b0_gs_ns_ks_lengths : list Z;
  b0_gs_ns_ks_strides : list Z;
  b1_gs_os_ns_lengths : list Z;
  b1_gs_os_ns_strides : list Z;
  c_gs_ms_os_lengths : list Z;
  c_gs_ms_os_strides : list Z;
  d_gs_ms_ns_lengths : list Z;
  d_gs_ms_ns_strides : list Z;
  acc1_biases_gs_ms_os_lengths : list (list Z);
  acc1_biases_gs_ms_os_strides : list (list Z);
  a_element_op : PassThrough;
  b0_element_op : PassThrough;
  acc0_element_op : Scale;
  b1_element_op : PassThrough;
  c_element_op : PassThrough;
  p_workspace : ptr
}.

Definition SetWorkSpacePointer (arg : Argument) (p : ptr) : Argument :=
  {| p_a := arg.(p_a); p_b0 := arg.(p_b0); p_b1 := arg.(p_b1); p_c := arg.(p_c);
     p_acc0_bias := arg.(p_acc0_bias); p_acc1_biases := arg.(p_acc1_biases);
     a_gs_ms_ks_lengths := arg.(a_gs_ms_ks_lengths);
     a_gs_ms_ks_strides := arg.(a_gs_ms_ks_strides);
     b0_gs_ns_ks_lengths := arg.(b0_gs_ns_ks_lengths);
     b0_gs_ns_ks_strides := arg.(b0_gs_ns_ks_strides);
     b1_gs_os_ns_lengths := arg.(b1_gs_os_ns_lengths);
     b1_gs_os_ns_strides := arg.(b1_gs_os_ns_strides);
     c_gs_ms_os_lengths := arg.(c_gs_ms_os_lengths);
     c_gs_ms_os_strides := arg.(c_gs_ms_os_strides);
     d_gs_ms_ns_lengths := arg.(d_gs_ms_ns_lengths);
     d_gs_ms_ns_strides := arg.(d_gs_ms_ns_strides);
     acc1_biases_gs_ms_os_lengths := arg.(acc1_biases_gs_ms_os_lengths);
     acc1_biases_gs_ms_os_strides := arg.(acc1_biases_gs_ms_os_strides);
     a_element_op := arg.(a_element_op); b0_element_op := arg.(b0_element_op);
     acc0_element_op := arg.(acc0_element_op);
     b1_element_op := arg.(b1_element_op); c_element_op := arg.(c_element_op);
     p_workspace := p |}.

(** An instantiation of [DeviceBatchedMultiheadAttentionInfer_Xdl_CShuffle]:
    the template arguments that vary (all others are constants of the
    struct). *)
Record DeviceOpInstance : Type := {
  DataType : scalar_type;
  MaskingSpec : Z;
  HasAcc0Bias : bool;
  kGemm1NPerBlock : Z;
  kGemm1NXdlPerWave : Z;
  kCShuffleNXdlPerWavePerShuffle : Z
}.

(** What the sources ask of a CK device op.  The answers are the library's. *)
Class DeviceOp : Type := {
  GetTypeString : DeviceOpInstance -> string;
  GetWorkSpaceSize : DeviceOpInstance -> Argument -> Z;
  IsSupportedArgument : DeviceOpInstance -> Argument -> bool
}.

(** The calls that leave the header. *)
Inductive event : Type :=
| MakeArgumentPointer (op : DeviceOpInstance) (arg : Argument)
| SimpleDeviceMem (size : Z)
| invoker_Run (op : DeviceOpInstance) (arg : Argument)
    (stream : hipStream_t) (time_kernel : bool).

Definition unsupported_what (type_string : string) : string :=
  (type_string ++ " does not support this problem")%string.

Section batched_infer_masktype_attnbias_dispatched.
(** The template parameters of the struct. *)
Variable scalar_t : scalar_type.
Variable custom_mask_type : Z.
Variable has_attn_bias : bool.

Context {ck : DeviceOp}.
(** [SimpleDeviceMem] is declared in [ck_fmha_op_helper.h], not among the
    sources: [GetDeviceBuffer size] is the buffer it holds for a request of
    [size] bytes. *)
Variable GetDeviceBuffer : Z -> ptr.

Definition DeviceOpInstanceTemp (kGemm1NPerBlock kGemm1NXdlPerWave
    kCShuffleNXdlPerWavePerShuffle : Z) : DeviceOpInstance :=
  {| DataType := scalar_t;
     MaskingSpec := custom_mask_type;
     HasAcc0Bias := has_attn_bias;
     kGemm1NPerBlock := kGemm1NPerBlock;
     kGemm1NXdlPerWave := kGemm1NXdlPerWave;
     kCShuffleNXdlPerWavePerShuffle := kCShuffleNXdlPerWavePerShuffle |}.

(** The argument pack built at the head of [RunWithDeviceOp]. *)
Definition marshal (param : BatchedForwardParams.t) : Argument :=
  let a_lengths := [param.(B); param.(num_heads); param.(M); param.(K)] in
  let a_strides := [param.(q_strides).[0]; param.(q_strides).[2];
                    param.(q_strides).[1]; param.(q_strides).[3]] in
  let b0_lengths := [param.(B); param.(num_heads); param.(N); param.(K)] in
  let b0_strides := [param.(k_strides).[0]; param.(k_strides).[2];
                     param.(k_strides).[1]; param.(k_strides).[3]] in
  let b1_lengths := [param.(B); param.(num_heads); param.(Kv); param.(N)] in
  let b1_strides := [param.(v_strides).[0]; param.(v_strides).[2];
                     param.(v_strides).[3]; param.(v_strides).[1]] in
  let c_lengths := [param.(B); param.(num_heads); param.(M); param.(Kv)] in
  let c_strides := [param.(out_strides).[0]; param.(out_strides).[2];
                    param.(out_strides).[1]; param.(out_strides).[3]] in
  let d_lengths :=
    if has_attn_bias
    then [param.(B); param.(num_heads); param.(M); param.(N)]
    else [1; 1; 1; 1] in
  let d_strides :=
    if has_attn_bias
    then [param.(attn_bias_strides).[0]; param.(attn_bias_strides).[1];
          param.(attn_bias_strides).[2]; param.(attn_bias_strides).[3]]
    else [0; 0; 0; 0] in
  let alpha := param.(scale) in
  {| p_a := param.(q_ptr);
     p_b0 := param.(k_ptr);
     p_b1 := param.(v_ptr);
     p_c := param.(out_ptr);
     p_acc0_bias :=
       if param.(BatchedForwardParams.has_attn_bias)
       then param.(attn_bias_ptr) else nullptr;
     p_acc1_biases := [];
     a_gs_ms_ks_lengths := a_lengths;
     a_gs_ms_ks_strides := a_strides;
     b0_gs_ns_ks_lengths := b0_lengths;
     b0_gs_ns_ks_strides := b0_strides;
     b1_gs_os_ns_lengths := b1_lengths;
     b1_gs_os_ns_strides := b1_strides;
     c_gs_ms_os_lengths := c_lengths;
     c_gs_ms_os_strides := c_strides;
     d_gs_ms_ns_lengths := d_lengths;
     d_gs_ms_ns_strides := d_strides;
     acc1_biases_gs_ms_os_lengths := [];
     acc1_biases_gs_ms_os_strides := [];
     a_element_op := PassThrough_;
     b0_element_op := PassThrough_;
     acc0_element_op := Scale_ alpha;
     b1_element_op := PassThrough_;
     c_element_op := PassThrough_;
     p_workspace := nullptr |}.

Definition RunWithDeviceOp (op : DeviceOpInstance)
    (param : BatchedForwardParams.t) (stream : hipStream_t) : Trace.M event unit :=
  (let arg := marshal param in
   emit (MakeArgumentPointer op arg) ;;;
   let size := GetWorkSpaceSize op arg in
   emit (SimpleDeviceMem size) ;;;
   let arg := SetWorkSpacePointer arg (GetDeviceBuffer size) in
   (if negb (IsSupportedArgument op arg)
    then throw (runtime_error (unsupported_what (GetTypeString op)))
    else ret tt) ;;;
   emit (invoker_Run op arg stream false))%fmha.

Definition Run (param : BatchedForwardParams.t) (stream : hipStream_t)
    : Trace.M event unit :=
  if (param.(K) <=? 32) && (param.(Kv) <=? 32) then
    RunWithDeviceOp (DeviceOpInstanceTemp 32 1 1) param stream
  else if (param.(K) <=? 64) && (param.(Kv) <=? 64) then
    RunWithDeviceOp (DeviceOpInstanceTemp 64 2 2) param stream
  else
    RunWithDeviceOp (DeviceOpInstanceTemp 128 4 4) param stream.

(** The argument as the device op has it when [RunWithDeviceOp] asks
    whether it is supported: the marshaled pack with the workspace
    pointer set. *)
Definition checked_arg (op : DeviceOpInstance) (param : BatchedForwardParams.t)
    : Argument :=
  SetWorkSpacePointer (marshal param)
    (GetDeviceBuffer (GetWorkSpaceSize op (marshal param))).
End batched_infer_masktype_attnbias_dispatched.

(** The device ops a trace made an argument for, and those it ran. *)
Definition instantiated (t : list event) : list DeviceOpInstance :=
  flat_map (fun e => match e with MakeArgumentPointer op _ => [op] | _ => [] end) t.
Definition invoked (t : list event) : list (DeviceOpInstance * Argument) :=
  flat_map (fun e => match e with invoker_Run op arg _ _ => [(op, arg)] | _ => [] end) t.
(** Every argument pack a trace handed to the device op. *)
Definition handed_over (t : list event) : list Argument :=
  flat_map (fun e => match e with
                     | MakeArgumentPointer _ arg => [arg]
                     | invoker_Run _ arg _ _ => [arg]
                     | SimpleDeviceMem _ => []
                     end) t.

End BatchedInfer.

(** ** Tile settings: [ck_tiled_fmha_fwd_setting.h] *)

Module FwdSetting.

(** The head-dimension buckets [FmhaFwdBlockTile] and [FmhaFwdShape] are
    specialized at. *)
Inductive MaxK_t : Type := MaxK_32 | MaxK_64 | MaxK_128 | MaxK_256.

Definition index_of (MaxK : MaxK_t) : Z :=
  match MaxK with
  | MaxK_32 => 32 | MaxK_64 => 64 | MaxK_128 => 128 | MaxK_256 => 256
  end.

Record BlockTile : Type := {
  type : list Z;
  gemm0_warps : list Z;
  gemm1_warps : list Z
}.

Definition FmhaFwdBlockTile (MaxK : MaxK_t) : BlockTile :=
  match MaxK with
  | MaxK_32 =>
      {| type := [128; 64; 16; 32; 32; 32];
         gemm0_warps := [2; 1; 1]; gemm1_warps := [2; 1; 1] |}
  | MaxK_64 =>
      {| type := [128; 64; 32; 64; 32; 64];
         gemm0_warps := [4; 1; 1]; gemm1_warps := [4; 1; 1] |}
  | MaxK_128 =>
      {| type := [128; 128; 32; 128; 32; 128];
         gemm0_warps := [4; 1; 1]; gemm1_warps := [4; 1; 1] |}
  | MaxK_256 =>
      {| type := [128; 128; 32; 256; 32; 256];
         gemm0_warps := [4; 1; 1]; gemm1_warps := [4; 1; 1] |}
  end.

Definition FmhaFwdWarpTile : list Z := [32; 32; 16].
Definition IsVLayoutRowMajor : bool := true.

(** [FmhaFwdShape<MaxK>] derives from CK's [TileFmhaShape], which names the
    entries of the block tile: [kN1] is entry 3 and [kK0BlockLength] is
    entry 5. *)
Definition kN1 (MaxK : MaxK_t) : Z := (FmhaFwdBlockTile MaxK).(type).[3].
Definition kK0BlockLength (MaxK : MaxK_t) : Z := (FmhaFwdBlockTile MaxK).(type).[5].

End FwdSetting.

(** ** Grouped dispatch: what the inference and the forward header share *)

Module Grouped.
Import Cxx FwdSetting.

(** The fields of [GroupedForwardParams] the two headers read (the struct is
    declared in [ck_tiled_fmha_params.h], not among the sources). *)
Record GroupedForwardParams : Type := {
  num_batches : Z;
  max_seqlen_q : Z;
  Hq : Z;
  Hkv : Z;
  K : Z;
  Kv : Z;
  scale : float;
  q_strides : list Z;
  k_strides : list Z;
  v_strides : list Z;
  attn_bias_strides : list Z;
  lse_strides : list Z;
  out_strides : list Z;
  q_ptr : ptr;
  k_ptr : ptr;
  v_ptr : ptr;
  attn_bias_ptr : ptr;
  logsumexp_ptr : ptr;
  out_ptr : ptr;
  seqstart_q_dev_ptr : ptr;
  seqstart_k_dev_ptr : ptr;
  seqlen_k_dev_ptr : ptr;
  custom_mask_type : Z;
  window_size : Z;
  dropout_prob : float;
  philox_seed : Z;
  philox_offset : Z
}.

(** The two mask templates of CK the headers choose between. *)
Inductive FmhaMask : Type :=
| GenericAttentionMask (IsMasking IsLocal : bool)
| SimplifiedGenericAttentionMask (IsMasking : bool).

Definition is_masking (m : FmhaMask) : bool :=
  match m with
  | GenericAttentionMask b _ => b
  | SimplifiedGenericAttentionMask b => b
  end.

(** The arguments of [ck::tile_program::TileFmhaTraits]. *)
Record TileFmhaTraits : Type := {
  kPadSeqLenQ : bool;
  kPadSeqLenK : bool;
  kPadHeadDimQ : bool;
  kPadHeadDimV : bool;
  kHasBias : bool;
  kHasBiasGrad : bool;
  kStoreLSE : bool;
  kHasDropout : bool;
  kBlockPerCu : Z
}.

(** A kernel type [FmhaFwdKernel<TilePartitioner, Pipeline, Epilogue>]:
    the template arguments the headers assemble it from. *)
Record FmhaFwdKernel : Type := {
  ScalarType : scalar_type;
  Shape : MaxK_t;
  kIsGroupMode : bool;
  Mask : FmhaMask;
  Traits : TileFmhaTraits;
  EpiloguePadM : bool;
  EpiloguePadN : bool
}.

(** [a / b] on [int]: the quotient truncated towards zero.  There is none
    when [b] is zero, nor for [INT_MIN / -1], whose quotient is no [int]:
    both are undefined in C++, and the target's division instruction traps
    on them (SIGFPE). *)
Definition int_div (a b : Z) : option Z :=
  if (b =? 0) || ((a =? - 2 ^ 31) && (b =? -1)) then None
  else Some (Z.quot a b).

Definition occupancy (MaxK : MaxK_t) : Z :=
  if index_of MaxK =? 64 then 3 else if index_of MaxK =? 256 then 1 else 2.

End Grouped.

(** ** Grouped inference: [ck_tiled_fmha_grouped_infer.h] *)

Module GroupedInfer.
Import Cxx Trace Switch FwdSetting Grouped.

(** [CausalMaskType] is a scoped enum of [ck_tiled_fmha_definitions.hpp]
    (not among the sources); [static_cast] to it keeps the integer. *)
Inductive CausalMaskType : Type := static_cast_CausalMaskType (underlying : Z).

(** The arguments of [FmhaKernel::MakeKargs], in the order of the call. *)
Module Kargs.
Record t : Type := {
  q_ptr : ptr;
  k_ptr : ptr;
  v_ptr : ptr;
  bias_ptr : ptr;
  rand_val_ptr : ptr;
  lse_ptr : ptr;
  o_ptr : ptr;
  seqstart_q_ptr : ptr;
  seqstart_k_ptr : ptr;
  seqlen_k_ptr : ptr;
  hdim_q : Z;
  hdim_v : Z;
  nhead_q : Z;
  nhead_ratio_qk : Z;
  scale : float;
  stride_q : Z;
  stride_k : Z;
  stride_v : Z;
  stride_bias : Z;
  stride_randval : Z;
  stride_o : Z;
  nhead_stride_q : Z;
  nhead_stride_k : Z;
  nhead_stride_v : Z;
  nhead_stride_bias : Z;
  nhead_stride_randval : Z;
  nhead_stride_lse : Z;
  nhead_stride_o : Z;
  batch_stride_lse : Z;
  mask_type : CausalMaskType;
  window_size : Z;
  descale_qk : float;
  descale_sv : float;
  p_drop : float;
  is_store_randval : bool;
  drop_seed_offset : Z * Z
}.
End Kargs.

(** [launch_kernel]: the kernel type, the stream configuration, the
    arguments given to [GridSize], the dynamic shared memory size and the
    kernel arguments. *)
Inductive event : Type :=
| launch_kernel (kernel : FmhaFwdKernel) (stream : hipStream_t) (time_kernel : bool)
    (GridSize : Z * Z * Z * Z) (lds_byte : Z) (kargs : Kargs.t).

Section grouped_infer_causalmask_attnbias_dispatched.
(** The template parameters of the struct. *)
Variable scalar_t : scalar_type.
Variable has_causal_mask : bool.
Variable has_attn_bias : bool.
Variable MaxK : MaxK_t.

(** The arguments as [MakeKargs] receives them; [nhead_ratio_qk] is the
    value of [param.Hq / param.Hkv], formed by the caller while it
    evaluates the arguments. *)
Definition MakeKargs (param : GroupedForwardParams) (nhead_ratio_qk : Z) : Kargs.t :=
  {| Kargs.q_ptr := param.(q_ptr);
     Kargs.k_ptr := param.(k_ptr);
     Kargs.v_ptr := param.(v_ptr);
     Kargs.bias_ptr := param.(attn_bias_ptr);
     Kargs.rand_val_ptr := nullptr;
     Kargs.lse_ptr := nullptr;
     Kargs.o_ptr := param.(out_ptr);
     Kargs.seqstart_q_ptr := param.(seqstart_q_dev_ptr);
     Kargs.seqstart_k_ptr := param.(seqstart_k_dev_ptr);
     Kargs.seqlen_k_ptr := param.(seqlen_k_dev_ptr);
     Kargs.hdim_q := param.(K);
     Kargs.hdim_v := param.(Kv);
     Kargs.nhead_q := param.(Hq);
     Kargs.nhead_ratio_qk := nhead_ratio_qk;
     Kargs.scale := param.(scale);
     Kargs.stride_q := param.(q_strides).[0];
     Kargs.stride_k := param.(k_strides).[0];
     Kargs.stride_v := param.(v_strides).[0];
     Kargs.stride_bias := param.(attn_bias_strides).[2];
     Kargs.stride_randval := 0;
     Kargs.stride_o := param.(out_strides).[0];
     Kargs.nhead_stride_q := param.(q_strides).[1];
     Kargs.nhead_stride_k := param.(k_strides).[1];
     Kargs.nhead_stride_v := param.(v_strides).[1];
     Kargs.nhead_stride_bias := param.(attn_bias_strides).[1];
     Kargs.nhead_stride_randval := 0;
     Kargs.nhead_stride_lse := 0;
     Kargs.nhead_stride_o := param.(out_strides).[1];
     Kargs.batch_stride_lse := 0;
     Kargs.mask_type := static_cast_CausalMaskType param.(custom_mask_type);
     Kargs.window_size := param.(window_size);
     Kargs.descale_qk := f32_one;
     Kargs.descale_sv := f32_one;
     Kargs.p_drop := param.(dropout_prob);
     Kargs.is_store_randval := false;
     Kargs.drop_seed_offset := (0, 0) |}.

(** The division among the arguments of [MakeKargs] comes before the call
    and so before the launch; where it has no quotient the process ends
    there. *)
Definition RunWithKernel (FmhaKernel : FmhaFwdKernel)
    (param : GroupedForwardParams) (stream : hipStream_t) : Trace.M event unit :=
  match int_div param.(Hq) param.(Hkv) with
  | None => throw (fatal_signal "SIGFPE")
  | Some nhead_ratio_qk =>
      let kargs := MakeKargs param nhead_ratio_qk in
      let kGridSize :=
        (param.(num_batches), param.(Hq), param.(max_seqlen_q), param.(Kv)) in
      emit (launch_kernel FmhaKernel stream false kGridSize 0 kargs)
  end.

Definition Run (param : GroupedForwardParams) (stream : hipStream_t)
    : Trace.M event unit :=
  let has_local_attention := if param.(window_size) >? 0 then true else false in
  BOOL_SWITCH has_local_attention (fun USE_LOCAL_ATTENTION =>
    let has_masking := has_causal_mask || USE_LOCAL_ATTENTION in
    let has_dropout := f32_gt_zero param.(dropout_prob) in
    let FmhaMask := GenericAttentionMask has_masking USE_LOCAL_ATTENTION in
    let kPadSeqLenQ := true in
    let kPadSeqLenK := true in
    let pad_headdim_q := negb (Z.rem param.(K) (kK0BlockLength MaxK) =? 0) in
    let pad_headdim_v := negb (Z.rem param.(Kv) (kN1 MaxK) =? 0) in
    BOOL_SWITCH_3 has_dropout pad_headdim_q pad_headdim_v
      (fun kHasDropout kPadHeadDimQ kPadHeadDimV =>
         let FmhaTraits :=
           {| kPadSeqLenQ := kPadSeqLenQ;
              kPadSeqLenK := kPadSeqLenK;
              kPadHeadDimQ := kPadHeadDimQ;
              kPadHeadDimV := kPadHeadDimV;
              kHasBias := has_attn_bias;
              kHasBiasGrad := false;
              kStoreLSE := false;
              Grouped.kHasDropout := kHasDropout;
              kBlockPerCu := occupancy MaxK |} in
         let FmhaKernel :=
           {| ScalarType := scalar_t;
              Shape := MaxK;
              kIsGroupMode := true;
              Mask := FmhaMask;
              Traits := FmhaTraits;
              EpiloguePadM := kPadSeqLenQ;
              EpiloguePadN := kPadHeadDimV |} in
         RunWithKernel FmhaKernel param stream)).
End grouped_infer_causalmask_attnbias_dispatched.

End GroupedInfer.

(** ** Grouped forward (training): [ck_tiled_fmha_grouped_forward.h] *)

Module GroupedForward.
Import Cxx Trace Switch FwdSetting Grouped.

(** The arguments of [FmhaFwdKernel::MakeKargs], in the order of the call. *)
Module Kargs.
Record t : Type := {
  q_ptr : ptr;
  k_ptr : ptr;
  v_ptr : ptr;
  bias_ptr : ptr;
  rand_val_ptr : ptr;
  lse_ptr : ptr;
  o_ptr : ptr;
  seqstart_q_ptr : ptr;
  seqstart_k_ptr : ptr;
  seqlen_k_ptr : ptr;
  hdim_q : Z;
  hdim_v : Z;
  nhead_q : Z;
  nhead_ratio_qk : Z;
  scale : float;
  stride_q : Z;
  stride_k : Z;
  stride_v : Z;
  stride_bias : Z;
  stride_randval : Z;
  stride_o : Z;
  nhead_stride_q : Z;
  nhead_stride_k : Z;
  nhead_stride_v : Z;
  nhead_stride_bias : Z;
  nhead_stride_randval : Z;
  nhead_stride_lse : Z;
  nhead_stride_o : Z;
  batch_stride_lse : Z;
  window_left_size : Z;
  window_right_size : Z;
  mask_type : Z;
  descale_qk : float;
  descale_sv : float;
  p_drop : float;
  is_store_randval : bool;
  drop_seed_offset : Z * Z
}.
End Kargs.

Inductive event : Type :=
| launch_kernel (kernel : FmhaFwdKernel) (stream : hipStream_t) (time_kernel : bool)
    (GridSize : Z * Z * Z * Z) (lds_byte : Z) (kargs : Kargs.t).

Section grouped_forward_causalmask_bias_dropout_dispatch.
(** The template parameters of the struct. *)
Variable ScalarType : scalar_type.
Variable kHasCausalMask : bool.
Variable kHasBias : bool.
Variable kHasDropout : bool.
Variable MaxK : MaxK_t.

(** The arguments as [MakeKargs] receives them; [nhead_ratio_qk] is the
    value of [param.Hq / param.Hkv], formed by the caller while it
    evaluates the arguments. *)
Definition MakeKargs (param : GroupedForwardParams) (nhead_ratio_qk : Z) : Kargs.t :=
  {| Kargs.q_ptr := param.(q_ptr);
     Kargs.k_ptr := param.(k_ptr);
     Kargs.v_ptr := param.(v_ptr);
     Kargs.bias_ptr := param.(attn_bias_ptr);
     Kargs.rand_val_ptr := nullptr;
     Kargs.lse_ptr := param.(logsumexp_ptr);
     Kargs.o_ptr := param.(out_ptr);
     Kargs.seqstart_q_ptr := param.(seqstart_q_dev_ptr);
     Kargs.seqstart_k_ptr := param.(seqstart_k_dev_ptr);
     Kargs.seqlen_k_ptr := param.(seqlen_k_dev_ptr);
     Kargs.hdim_q := param.(K);
     Kargs.hdim_v := param.(Kv);
     Kargs.nhead_q := param.(Hq);
     Kargs.nhead_ratio_qk := nhead_ratio_qk;
     Kargs.scale := param.(scale);
     Kargs.stride_q := param.(q_strides).[0];
     Kargs.stride_k := param.(k_strides).[0];
     Kargs.stride_v := param.(v_strides).[0];
     Kargs.stride_bias := param.(attn_bias_strides).[2];
     Kargs.stride_randval := 0;
     Kargs.stride_o := param.(out_strides).[0];
     Kargs.nhead_stride_q := param.(q_strides).[1];
     Kargs.nhead_stride_k := param.(k_strides).[1];
     Kargs.nhead_stride_v := param.(v_strides).[1];
     Kargs.nhead_stride_bias := param.(attn_bias_strides).[1];
     Kargs.nhead_stride_randval := 0;
     Kargs.nhead_stride_lse := param.(lse_strides).[1];
     Kargs.nhead_stride_o := param.(out_strides).[1];
     Kargs.batch_stride_lse := param.(lse_strides).[0];
     Kargs.window_left_size :=
       if param.(window_size) >? 0 then param.(window_size) - 1 else -1;
     Kargs.window_right_size :=
       if param.(custom_mask_type) =? 0 then -1 else 0;
     Kargs.mask_type := param.(custom_mask_type);
     Kargs.descale_qk := f32_one;
     Kargs.descale_sv := f32_one;
     Kargs.p_drop := param.(dropout_prob);
     Kargs.is_store_randval := false;
     Kargs.drop_seed_offset := (param.(philox_seed), param.(philox_offset)) |}.

(** The division among the arguments of [MakeKargs] comes before the call
    and so before the launch; where it has no quotient the process ends
    there. *)
Definition RunWithKernel (FmhaFwdKernel_ : FmhaFwdKernel)
    (param : GroupedForwardParams) (stream : hipStream_t) : Trace.M event unit :=
  match int_div param.(Hq) param.(Hkv) with
  | None => throw (fatal_signal "SIGFPE")
  | Some nhead_ratio_qk =>
      let kargs := MakeKargs param nhead_ratio_qk in
      let kGridSize :=
        (param.(num_batches), param.(Hq), param.(max_seqlen_q), param.(Kv)) in
      emit (launch_kernel FmhaFwdKernel_ stream false kGridSize 0 kargs)
  end.

Definition Run (param : GroupedForwardParams) (stream : hipStream_t)
    : Trace.M event unit :=
  let has_local_attention := if param.(window_size) >? 0 then true else false in
  BOOL_SWITCH has_local_attention (fun USE_LOCAL_ATTENTION =>
    let has_masking := kHasCausalMask || USE_LOCAL_ATTENTION in
    let FmhaMask := SimplifiedGenericAttentionMask has_masking in
    let kPadSeqLenQ := true in
    let kPadSeqLenK := true in
    let pad_headdim_q := negb (Z.rem param.(K) (kK0BlockLength MaxK) =? 0) in
    let pad_headdim_v := negb (Z.rem param.(Kv) (kN1 MaxK) =? 0) in
    BOOL_SWITCH_2 pad_headdim_q pad_headdim_v
      (fun kPadHeadDimQ kPadHeadDimV =>
         let FmhaFwdTraits_ :=
           {| kPadSeqLenQ := kPadSeqLenQ;
              kPadSeqLenK := kPadSeqLenK;
              kPadHeadDimQ := kPadHeadDimQ;
              kPadHeadDimV := kPadHeadDimV;
              Grouped.kHasBias := kHasBias;
              kHasBiasGrad := false;
              kStoreLSE := true;
              Grouped.kHasDropout := kHasDropout;
              kBlockPerCu := occupancy MaxK |} in
         let FmhaFwdKernel_ :=
           {| Grouped.ScalarType := ScalarType;
              Shape := MaxK;
              kIsGroupMode := true;
              Mask := FmhaMask;
              Traits := FmhaFwdTraits_;
              EpiloguePadM := kPadSeqLenQ;
              EpiloguePadN := kPadHeadDimV |} in
         RunWithKernel FmhaFwdKernel_ param stream)).
End grouped_forward_causalmask_bias_dropout_dispatch.

End GroupedForward.

(** ** Random integers for testing: [attention_ck_rand_uniform.cpp] *)

Module RandUniform.
Import Cxx Trace.

Inductive ScalarType : Type := Int | Half | BFloat16 | Float.

Record TensorOptions : Type := {
  dtype : ScalarType;
  device : Z
}.

(** [options.dtype(d)]. *)
Definition with_dtype (o : TensorOptions) (d : ScalarType) : TensorOptions :=
  {| dtype := d; device := o.(device) |}.

(** A tensor: its geometry, its storage and the elements found there,
    by index [[b; h; m; n]]. *)
Record Tensor : Type := {
  sizes : list Z;
  strides : list Z;
  options : TensorOptions;
  data_ptr : ptr;
  elements : list Z -> Z
}.

(** What the function asks of the tensor framework.  The answers are the
    framework's: the Philox state a generator hands out for a requested
    increment, its unpacking into seed and offset, and the strides
    [at::empty] lays a shape out with. *)
Class Framework : Type := {
  CUDAGeneratorImpl : Type;
  PhiloxCudaState : Type;
  philox_cuda_state : CUDAGeneratorImpl -> Z -> PhiloxCudaState;
  unpack : PhiloxCudaState -> Z * Z;
  empty_strides : list Z -> list Z
}.

(** The surroundings of one call: the current stream, the default
    generator, and the storage [at::empty] comes back with (address and
    the uninitialized elements there). *)
Record Host `{Framework} : Type := {
  getCurrentHIPStream : hipStream_t;
  getDefaultCUDAGenerator : CUDAGeneratorImpl;
  fresh_storage : ptr;
  uninitialized : list Z -> Z
}.

(** The arguments of [FmhaRandUniformKernel_::MakeKargs], in the order of
    the call. *)
Module Kargs.
Record t : Type := {
  rand_val_ptr : ptr;
  seqlen_q : Z;
  seqlen_k : Z;
  num_heads : Z;
  num_batches : Z;
  stride_seqlen_q : Z;
  stride_seqlen_k : Z;
  stride_nhead : Z;
  stride_batch : Z;
  philox_seed_offset : Z * Z
}.
End Kargs.

(** The template arguments of [FmhaRandUniformKernel]. *)
Record FmhaRandUniformKernel : Type := {
  kMPerBlock : Z;
  kNPerBlock : Z;
  kKPerBlock : Z;
  RandValOutputDataType : ScalarType;
  kPadSeqLenQ : bool
}.

Inductive event `{Framework} : Type :=
| lock_philox_cuda_state (gen : CUDAGeneratorImpl) (increment : Z)
| at_empty (size : list Z) (opts : TensorOptions)
| launch_kernel (kernel : FmhaRandUniformKernel) (stream : hipStream_t)
    (time_kernel : bool) (GridSize : Z * Z * Z * Z) (lds_byte : Z) (kargs : Kargs.t)
| hipStreamSynchronize (stream : hipStream_t).

(** Modelled from the spec: the kernel [FmhaRandUniformKernel] of
    [ck_tiled_fmha_rand_uniform_kernel.hpp] is not among the sources.  The
    spec's glossary describes Philox as a counter-based generator that gives
    a deterministic, seek-able random stream across parallel GPU threads:
    the value the kernel stores at an element is the stream's value for the
    seed, the offset and the element's place in the
    [num_batches x num_heads x seqlen_q x seqlen_k] output, whatever thread
    stores it.  [philox] is that stream. *)
Definition FmhaRandUniformKernel_elements
    (philox : Z * Z -> list Z -> list Z -> Z) (kargs : Kargs.t) : list Z -> Z :=
  philox kargs.(Kargs.philox_seed_offset)
    [kargs.(Kargs.num_batches); kargs.(Kargs.num_heads);
     kargs.(Kargs.seqlen_q); kargs.(Kargs.seqlen_k)].

Section rand_uniform_int.
Context `{fw : Framework}.
Variable philox : Z * Z -> list Z -> list Z -> Z.

(** [t.size(d)]: the framework raises when [d] is not a dimension. *)
Definition size (t : Tensor) (d : nat) : Trace.M event Z :=
  match nth_error t.(sizes) d with
  | Some z => ret z
  | None => throw (foreign_error "at::Tensor::size")
  end.

(** [t.stride(d)] of a tensor that has dimension [d]. *)
Definition stride (t : Tensor) (d : nat) : Z := t.(strides).[d].

(** [at::empty(size, opts)]: the framework refuses a negative dimension. *)
Definition empty (host : Host) (size : list Z) (opts : TensorOptions)
    : Trace.M event Tensor :=
  (emit (at_empty size opts) ;;;
   if existsb (fun z => z <? 0) size
   then throw (foreign_error "at::empty")
   else ret {| sizes := size;
               strides := empty_strides size;
               options := opts;
               data_ptr := host.(fresh_storage);
               elements := host.(uninitialized) |})%fmha.

(** The tensor once the kernel has run over its storage. *)
Definition filled (t : Tensor) (kargs : Kargs.t) : Tensor :=
  {| sizes := t.(sizes);
     strides := t.(strides);
     options := t.(options);
     data_ptr := t.(data_ptr);
     elements := FmhaRandUniformKernel_elements philox kargs |}.

Definition FmhaRandUniformKernel_ : FmhaRandUniformKernel :=
  {| kMPerBlock := 128; kNPerBlock := 64; kKPerBlock := 32;
     RandValOutputDataType := Int; kPadSeqLenQ := false |}.

Definition rand_uniform_int (dropout_prob : double) (out_pattern : Tensor)
    (host : Host) : Trace.M event Tensor :=
  (B0 <- size out_pattern 0 ;;
   let B := to_int B0 in
   num_heads0 <- size out_pattern 1 ;;
   let num_heads := to_int num_heads0 in
   M0 <- size out_pattern 2 ;;
   let M := to_int M0 in
   N0 <- size out_pattern 3 ;;
   let N := to_int N0 in
   let stream := host.(getCurrentHIPStream) in
   let gen := host.(getDefaultCUDAGenerator) in
   let increment := to_uint64 (int_mul (int_mul (int_mul B num_heads) M) N) in
   emit (lock_philox_cuda_state gen increment) ;;;
   let rng_engine_inputs := philox_cuda_state gen increment in
   let seeds := unpack rng_engine_inputs in
   let philox_seed := to_int64 (fst seeds) in
   let philox_offset := to_int64 (snd seeds) in
   randvals <- empty host [B; num_heads; M; N]
                 (with_dtype out_pattern.(options) Int) ;;
   let kargs :=
     {| Kargs.rand_val_ptr := randvals.(data_ptr);
        Kargs.seqlen_q := M;
        Kargs.seqlen_k := N;
        Kargs.num_heads := num_heads;
        Kargs.num_batches := B;
        Kargs.stride_seqlen_q := to_int (stride randvals 2);
        Kargs.stride_seqlen_k := to_int (stride randvals 3);
        Kargs.stride_nhead := to_int (stride randvals 1);
        Kargs.stride_batch := to_int (stride randvals 0);
        Kargs.philox_seed_offset := (philox_seed, philox_offset) |} in
   let kGridSize := (B, num_heads, M, N) in
   emit (launch_kernel FmhaRandUniformKernel_ stream false kGridSize 0 kargs) ;;;
   emit (hipStreamSynchronize stream) ;;;
   ret (filled randvals kargs))%fmha.
End rand_uniform_int.

(** The increments a trace asked the generator for, and the kernel
    arguments it launched with. *)
Definition requested_increments `{Framework} (t : list event) : list Z :=
  flat_map (fun e => match e with lock_philox_cuda_state _ i => [i] | _ => [] end) t.
Definition launched_kargs `{Framework} (t : list event) : list Kargs.t :=
  flat_map (fun e => match e with launch_kernel _ _ _ _ _ k => [k] | _ => [] end) t.


End RandUniform.

(** ** Concrete inputs *)

Module Examples.
Import Cxx.

Definition stream0 : hipStream_t := stream_handle 0.

(** Backward parameters with a mask type outside the enum and with a
    causal mask from the top left. *)
Definition bwd_mask3 : BatchedBackward.BatchedBackwardParams :=
  {| BatchedBackward.K := 64; BatchedBackward.Kv := 64;
     BatchedBackward.custom_mask_type := 3;
     BatchedBackward.has_attn_bias := true;
     BatchedBackward.bias_has_grad := false |}.

Definition bwd_causal : BatchedBackward.BatchedBackwardParams :=
  {| BatchedBackward.K := 64; BatchedBackward.Kv := 64;
     BatchedBackward.custom_mask_type := 1;
     BatchedBackward.has_attn_bias := true;
     BatchedBackward.bias_has_grad := true |}.

(** Grouped parameters for two sequences of 8 heads with head dimension
    128; [grouped_param m w] has mask type [m] and window size [w]. *)
Definition grouped_param (mask window : Z) : Grouped.GroupedForwardParams :=
  {| Grouped.num_batches := 2;
     Grouped.max_seqlen_q := 512;
     Grouped.Hq := 8;
     Grouped.Hkv := 8;
     Grouped.K := 128;
     Grouped.Kv := 128;
     Grouped.scale := 0x3DB504F3;
     Grouped.q_strides := [1024; 128; 1];
     Grouped.k_strides := [1024; 128; 1];
     Grouped.v_strides := [1024; 128; 1];
     Grouped.attn_bias_strides := [0; 0; 0];
     Grouped.lse_strides := [4096; 512];
     Grouped.out_strides := [1024; 128; 1];
     Grouped.q_ptr := 4096%N;
     Grouped.k_ptr := 8192%N;
     Grouped.v_ptr := 12288%N;
     Grouped.attn_bias_ptr := 0%N;
     Grouped.logsumexp_ptr := 16384%N;
     Grouped.out_ptr := 20480%N;
     Grouped.seqstart_q_dev_ptr := 24576%N;
     Grouped.seqstart_k_dev_ptr := 28672%N;
     Grouped.seqlen_k_dev_ptr := 0%N;
     Grouped.custom_mask_type := mask;
     Grouped.window_size := window;
     Grouped.dropout_prob := 0x3DCCCCCD;
     Grouped.philox_seed := 42;
     Grouped.philox_offset := 1000 |}.

(** The kernel type the grouped inference [Run] assembles for fp16, no
    causal mask, no bias, head dimension 128, at [grouped_param 3 0]. *)
Definition infer_kernel : Grouped.FmhaFwdKernel :=
  {| Grouped.ScalarType := half_t;
     Grouped.Shape := FwdSetting.MaxK_128;
     Grouped.kIsGroupMode := true;
     Grouped.Mask := Grouped.GenericAttentionMask false false;
     Grouped.Traits :=
       {| Grouped.kPadSeqLenQ := true; Grouped.kPadSeqLenK := true;
          Grouped.kPadHeadDimQ := false; Grouped.kPadHeadDimV := false;
          Grouped.kHasBias := false; Grouped.kHasBiasGrad := false;
          Grouped.kStoreLSE := false; Grouped.kHasDropout := true;
          Grouped.kBlockPerCu := 2 |};
     Grouped.EpiloguePadM := true;
     Grouped.EpiloguePadN := false |}.

(** A framework in the manner of the host tensor library: a generator is
    its seed and offset, the state handed out is the generator's current
    one, and [at::empty] lays a shape out contiguously. *)
Fixpoint contiguous (size : list Z) : list Z :=
  match size with
  | [] => []
  | _ :: rest => fold_right (fun z acc => Z.max z 1 * acc) 1 rest :: contiguous rest
  end.

Definition torch : RandUniform.Framework :=
  {| RandUniform.CUDAGeneratorImpl := (Z * Z)%type;
     RandUniform.PhiloxCudaState := (Z * Z)%type;
     RandUniform.philox_cuda_state := fun gen _ => gen;
     RandUniform.unpack := fun st => st;
     RandUniform.empty_strides := contiguous |}.

Definition host_at (storage : ptr) (stream : N) : @RandUniform.Host torch :=
  @RandUniform.Build_Host torch (stream_handle stream) (42, 1000) storage (fun _ => 0).

(** A pattern tensor of the given shape; only its shape and options are
    read. *)
Definition pattern (size : list Z) (dt : RandUniform.ScalarType) : RandUniform.Tensor :=
  {| RandUniform.sizes := size;
     RandUniform.strides := contiguous size;
     RandUniform.options := {| RandUniform.dtype := dt; RandUniform.device := 0 |};
     RandUniform.data_ptr := 65536%N;
     RandUniform.elements := fun _ => 0 |}.

(** A stream function standing for the Philox stream. *)
Definition toy_philox (seed_offset : Z * Z) (shape idx : list Z) : Z :=
  fst seed_offset + snd seed_offset + fold_right Z.add 0 idx.

(** Batched inference parameters with head dimensions [k] and [kv]. *)
Definition infer_param (k kv : Z) (bias : bool) : BatchedInfer.BatchedForwardParams.t :=
  {| BatchedInfer.BatchedForwardParams.B := 2;
     BatchedInfer.BatchedForwardParams.num_heads := 8;
     BatchedInfer.BatchedForwardParams.M := 512;
     BatchedInfer.BatchedForwardParams.N := 256;
     BatchedInfer.BatchedForwardParams.K := k;
     BatchedInfer.BatchedForwardParams.Kv := kv;
     BatchedInfer.BatchedForwardParams.scale := 0x3DB504F3;
     BatchedInfer.BatchedForwardParams.has_attn_bias := bias;
     BatchedInfer.BatchedForwardParams.q_strides := [11; 12; 13; 14];
     BatchedInfer.BatchedForwardParams.k_strides := [21; 22; 23; 24];
     BatchedInfer.BatchedForwardParams.v_strides := [31; 32; 33; 34];
     BatchedInfer.BatchedForwardParams.out_strides := [41; 42; 43; 44];
     BatchedInfer.BatchedForwardParams.attn_bias_strides := [51; 52; 53; 54];
     BatchedInfer.BatchedForwardParams.q_ptr := 4096%N;
     BatchedInfer.BatchedForwardParams.k_ptr := 8192%N;
     BatchedInfer.BatchedForwardParams.v_ptr := 12288%N;
     BatchedInfer.BatchedForwardParams.out_ptr := 16384%N;
     BatchedInfer.BatchedForwardParams.attn_bias_ptr := 20480%N |}.

(** A device op that supports head dimensions up to its tile. *)
Definition toy_ck : BatchedInfer.DeviceOp :=
  {| BatchedInfer.GetTypeString := fun _ => "DeviceBatchedMultiheadAttentionInfer_Xdl_CShuffle"%string;
     BatchedInfer.GetWorkSpaceSize := fun _ _ => 0;
     BatchedInfer.IsSupportedArgument := fun op arg =>
       (BatchedInfer.b1_gs_os_ns_lengths arg).[2] <=? BatchedInfer.kGemm1NPerBlock op |}.

End Examples.

(** ** Checking the mask type *)

Module MaskCheck.
Import Cxx Trace.

(** The mask types the enum names. *)
Definition known_mask (z : Z) : Prop := z = 0 \/ z = 1 \/ z = 2.

(** A layer rejects unknown mask types when, for every parameter struct
    whose mask type is none of 0, 1, 2, it makes no call and launches
    nothing, and ends by throwing a [std::runtime_error]. *)
Definition rejects_unknown_mask {P E : Type} (mask : P -> Z)
    (run : P -> Trace.M E unit) : Prop :=
  forall p, ~ known_mask (mask p) ->
    events (run p) = [] /\ exists what, throws (run p) (runtime_error what).

End MaskCheck.

(** ** The instantiations the sources declare, and what a trace launched *)

Module Instantiations.
Import Cxx Trace FwdSetting Grouped.

(** The template arguments after [ck::half_t] of the [extern template]
    declarations of [ck_tiled_fmha_batched_backward_fp16.cpp], in the order
    of the file: causal mask, attention bias, bias gradient, [MaxK]. *)
Definition extern_templates : list (bool * bool * bool * Z) :=
  [ (false, true, true, 32); (false, true, false, 32); (false, false, false, 32);
    (true, true, true, 32); (true, true, false, 32); (true, false, false, 32);
    (false, true, true, 64); (false, true, false, 64); (false, false, false, 64);
    (true, true, true, 64); (true, true, false, 64); (true, false, false, 64);
    (false, true, true, 128); (false, true, false, 128); (false, false, false, 128);
    (true, true, true, 128); (true, true, false, 128); (true, false, false, 128) ].

(** The explicit instantiation of
    [instances/ck_tiled_fmha_batched_backward_fp16_no_causalmask_no_attnbias_maxk_64.cpp]. *)
Definition no_causalmask_no_attnbias_maxk_64 : bool * bool * bool * Z :=
  (false, false, false, 64).

(** The call of [run_batched_backward_causalmask_attnbias_dispatched] at
    [ck::half_t] with the given template arguments. *)
Definition fp16_call (targs : bool * bool * bool * Z)
    (param : BatchedBackward.BatchedBackwardParams) (stream : hipStream_t)
    : BatchedBackward.call :=
  let '(causal, bias, grad, MaxK) := targs in
  BatchedBackward.run_batched_backward_causalmask_attnbias_dispatched
    half_t causal bias grad MaxK param stream.

(** The struct and the stream a backward call is given. *)
Definition call_args (c : BatchedBackward.call)
    : BatchedBackward.BatchedBackwardParams * hipStream_t :=
  match c with
  | BatchedBackward.batched_backward_masktype_attnbias_dispatched _ _ _ p s => (p, s)
  | BatchedBackward.run_batched_backward_causalmask_attnbias_dispatched _ _ _ _ _ p s =>
      (p, s)
  end.

(** The free functions at the end of the two grouped headers: each only
    forwards to [Run] of its struct. *)
Definition run_grouped_infer_causalmask_attnbias_dispatched
    (scalar_t : scalar_type) (has_causal_mask has_attn_bias : bool) (MaxK : MaxK_t)
    (param : GroupedForwardParams) (stream : hipStream_t)
    : Trace.M GroupedInfer.event unit :=
  GroupedInfer.Run scalar_t has_causal_mask has_attn_bias MaxK param stream.

Definition run_grouped_forward_causalmask_bias_dropout_dispatch
    (ScalarType : scalar_type) (kHasCausalMask kHasBias kHasDropout : bool)
    (MaxK : MaxK_t) (param : GroupedForwardParams) (stream : hipStream_t)
    : Trace.M GroupedForward.event unit :=
  GroupedForward.Run ScalarType kHasCausalMask kHasBias kHasDropout MaxK param stream.

(** The explicit instantiation of
    [instances/fmha_grouped_forward_fp16_has_causalmask_has_bias_no_dropout_maxk_128.cpp]. *)
Definition fmha_grouped_forward_fp16_has_causalmask_has_bias_no_dropout_maxk_128
    (param : GroupedForwardParams) (stream : hipStream_t)
    : Trace.M GroupedForward.event unit :=
  run_grouped_forward_causalmask_bias_dropout_dispatch
    half_t true true false MaxK_128 param stream.

(** The kernel types and kernel arguments of the launches of a trace. *)
Definition infer_kernels (t : list GroupedInfer.event) : list FmhaFwdKernel :=
  map (fun e => match e with GroupedInfer.launch_kernel k _ _ _ _ _ => k end) t.
Definition infer_kargs (t : list GroupedInfer.event) : list GroupedInfer.Kargs.t :=
  map (fun e => match e with GroupedInfer.launch_kernel _ _ _ _ _ a => a end) t.
Definition forward_kernels (t : list GroupedForward.event) : list FmhaFwdKernel :=
  map (fun e => match e with GroupedForward.launch_kernel k _ _ _ _ _ => k end) t.
Definition forward_kargs (t : list GroupedForward.event) : list GroupedForward.Kargs.t :=
  map (fun e => match e with GroupedForward.launch_kernel _ _ _ _ _ a => a end) t.

(** Where and how a trace launched: stream, timing flag, the arguments of
    [GridSize] and the dynamic shared memory size. *)
Definition infer_launch_sites (t : list GroupedInfer.event)
    : list (hipStream_t * bool * (Z * Z * Z * Z) * Z) :=
  map (fun e => match e with
                | GroupedInfer.launch_kernel _ s tk g lds _ => (s, tk, g, lds)
                end) t.
Definition forward_launch_sites (t : list GroupedForward.event)
    : list (hipStream_t * bool * (Z * Z * Z * Z) * Z) :=
  map (fun e => match e with
                | GroupedForward.launch_kernel _ s tk g lds _ => (s, tk, g, lds)
                end) t.

End Instantiations.

(** * Properties *)

(** ** The trace monad *)

Module TraceFacts.
Import Cxx Trace.

Section Laws.
Context {E : Type}.

Lemma bind_ret_l {A B} (a : A) (k : A -> M E B) : bind (ret a) k = k a.
Proof. unfold bind, ret. destruct (k a) as [t r]. reflexivity. Qed.

Lemma bind_throw {A B} (e : exn) (k : A -> M E B) : bind (throw e) k = throw e.
Proof. reflexivity. Qed.

Lemma bind_emit {B} (e : E) (k : unit -> M E B) :
  bind (emit e) k = (e :: events (k tt), result (k tt)).
Proof. unfold bind, emit, events, result. destruct (k tt) as [t r]. reflexivity. Qed.

Lemma events_bind_throws {A B} (m : M E A) (k : A -> M E B) e :
  throws m e -> bind m k = (events m, inl e).
Proof.
  unfold throws, result, events. destruct m as [t [e'|a]]; simpl; intros H.
  - congruence.
  - discriminate.
Qed.

Lemma throws_not_returns {A} (m : M E A) e : throws m e -> ~ returns m.
Proof. unfold throws, returns. intros H [a Ha]. congruence. Qed.
End Laws.
End TraceFacts.

(** ** Batched backward dispatch *)

Module BatchedBackwardFacts.
Import Cxx Trace Switch BatchedBackward MaskCheck.

Lemma unknown_mask_eqb (z : Z) :
  ~ known_mask z -> (z =? 0) = false /\ (z =? 1) = false /\ (z =? 2) = false.
Proof.
  unfold known_mask. intros H.
  repeat split; apply Z.eqb_neq; intros ->; apply H; auto.
Qed.

(** Case analysis on the mask type of a struct: 0, 1, 2 or none of them. *)
Ltac mask_cases param :=
  destruct (Z.eqb_spec (custom_mask_type param) 0) as [?E0|?E0];
  [|destruct (Z.eqb_spec (custom_mask_type param) 1) as [?E1|?E1];
    [|destruct (Z.eqb_spec (custom_mask_type param) 2) as [?E2|?E2]]].

Lemma what_distinct : invalid_mask_what <> bias_grad_what.
Proof. discriminate. Qed.

(** The fp16 dispatcher, case by case. *)
Lemma batched_backward_fp16_unfold headdim param stream :
  batched_backward_fp16 headdim param stream =
  if param.(has_attn_bias) || negb param.(bias_has_grad) then
    match headdim param.(K) param.(Kv) with
    | None => throw (foreign_error "FMHA_BWD_HEADDIM_SWITCH")
    | Some MaxK =>
        if param.(custom_mask_type) =? 0 then
          emit (run_batched_backward_causalmask_attnbias_dispatched
                  half_t false param.(has_attn_bias) param.(bias_has_grad)
                  MaxK param stream)
        else if (param.(custom_mask_type) =? 1) || (param.(custom_mask_type) =? 2) then
          emit (run_batched_backward_causalmask_attnbias_dispatched
                  half_t true param.(has_attn_bias) param.(bias_has_grad)
                  MaxK param stream)
        else throw (runtime_error invalid_mask_what)
    end
  else throw (runtime_error bias_grad_what).
Proof.
  unfold batched_backward_fp16, BOOL_SWITCH_2, BOOL_SWITCH,
    FMHA_BWD_HEADDIM_SWITCH.
  destruct (has_attn_bias param), (bias_has_grad param); reflexivity.
Qed.

Lemma batched_backward_bp16_unfold param stream :
  batched_backward_bp16 param stream =
  if (param.(custom_mask_type) =? 0) || (param.(custom_mask_type) =? 1)
     || (param.(custom_mask_type) =? 2)
  then emit (batched_backward_masktype_attnbias_dispatched
               bhalf_t param.(custom_mask_type) param.(has_attn_bias) param stream)
  else throw (runtime_error invalid_mask_what).
Proof.
  unfold batched_backward_bp16.
  destruct (Z.eqb_spec (custom_mask_type param) 0) as [->|_];
    [destruct (has_attn_bias param); reflexivity|].
  destruct (Z.eqb_spec (custom_mask_type param) 1) as [->|_];
    [destruct (has_attn_bias param); reflexivity|].
  destruct (Z.eqb_spec (custom_mask_type param) 2) as [->|_];
    [destruct (has_attn_bias param); reflexivity|].
  reflexivity.
Qed.

(** C3.  [batched_backward_fp16] throws
    ["bias_has_grad should be false when has_attn_bias is false!"] whenever
    [bias_has_grad] is set and [has_attn_bias] is not, calling no
    instantiation; when [has_attn_bias] is set or [bias_has_grad] is not,
    it does not end with that error. *)
Theorem batched_backward_fp16_bias_grad_guard :
  forall headdim param stream,
    (param.(bias_has_grad) = true /\ param.(has_attn_bias) = false ->
     throws (batched_backward_fp16 headdim param stream) (runtime_error bias_grad_what)
     /\ events (batched_backward_fp16 headdim param stream) = [])
    /\
    (param.(has_attn_bias) = true \/ param.(bias_has_grad) = false ->
     ~ throws (batched_backward_fp16 headdim param stream) (runtime_error bias_grad_what)).
Proof.
  intros headdim param stream.
  rewrite batched_backward_fp16_unfold. split.
  - intros [-> ->]. simpl. split; reflexivity.
  - intros H.
    assert (Hg : has_attn_bias param || negb (bias_has_grad param) = true).
    { destruct H as [-> | ->]; [reflexivity | apply orb_true_r]. }
    rewrite Hg. unfold throws, result.
    destruct (headdim (K param) (Kv param)) as [MaxK|]; [|simpl; discriminate].
    destruct (custom_mask_type param =? 0); [simpl; discriminate|].
    destruct ((custom_mask_type param =? 1) || (custom_mask_type param =? 2));
      [simpl; discriminate|].
    simpl. discriminate.
Qed.

(** C3 at concrete structs: bias gradient without bias is refused, and
    the same struct with a bias goes through. *)
Lemma batched_backward_fp16_bias_grad_guard_witness :
  throws (batched_backward_fp16 headdim_32_64_128
            {| K := 64; Kv := 64; custom_mask_type := 0;
               has_attn_bias := false; bias_has_grad := true |}
            Examples.stream0)
         (runtime_error bias_grad_what)
  /\ ~ throws (batched_backward_fp16 headdim_32_64_128 Examples.bwd_causal
                 Examples.stream0)
              (runtime_error bias_grad_what).
Proof.
  split.
  - apply (batched_backward_fp16_bias_grad_guard headdim_32_64_128
             {| K := 64; Kv := 64; custom_mask_type := 0;
                has_attn_bias := false; bias_has_grad := true |}
             Examples.stream0).
    split; reflexivity.
  - apply (batched_backward_fp16_bias_grad_guard headdim_32_64_128
             Examples.bwd_causal Examples.stream0).
    left; reflexivity.
Defined.

(** C4.  The two dispatchers call the instantiation the struct determines.
    [batched_backward_fp16], once its guard holds and a head-dimension
    bucket is bound, calls the instantiation without causal mask exactly
    when [custom_mask_type] is 0 and the one with causal mask exactly when
    it is 1 or 2; every call it makes carries [has_attn_bias] and
    [bias_has_grad] of the struct.  [batched_backward_bp16] calls the
    instantiation whose integer argument is [custom_mask_type] itself (0, 1
    or 2) and whose bias argument is [has_attn_bias]. *)
Theorem backward_dispatch_selects_by_params :
  forall headdim param stream,
    let fp16 := batched_backward_fp16 headdim param stream in
    let bp16 := batched_backward_bp16 param stream in
    let inst causal MaxK :=
      run_batched_backward_causalmask_attnbias_dispatched
        half_t causal param.(has_attn_bias) param.(bias_has_grad) MaxK param stream in
    (forall MaxK,
        headdim param.(K) param.(Kv) = Some MaxK ->
        param.(has_attn_bias) || negb param.(bias_has_grad) = true ->
        (events fp16 = [inst false MaxK] <-> param.(custom_mask_type) = 0) /\
        (events fp16 = [inst true MaxK] <->
           param.(custom_mask_type) = 1 \/ param.(custom_mask_type) = 2))
    /\
    (forall c, In c (events fp16) ->
        exists MaxK,
          headdim param.(K) param.(Kv) = Some MaxK /\
          known_mask param.(custom_mask_type) /\
          events fp16 = [c] /\
          c = inst (negb (param.(custom_mask_type) =? 0)) MaxK)
    /\
    (known_mask param.(custom_mask_type) ->
       bp16 = emit (batched_backward_masktype_attnbias_dispatched
                      bhalf_t param.(custom_mask_type) param.(has_attn_bias)
                      param stream))
    /\
    (forall c, In c (events bp16) ->
       known_mask param.(custom_mask_type) /\
       c = batched_backward_masktype_attnbias_dispatched
             bhalf_t param.(custom_mask_type) param.(has_attn_bias) param stream).
Proof.
  intros headdim param stream fp16 bp16 inst. subst fp16 bp16 inst.
  rewrite batched_backward_fp16_unfold, batched_backward_bp16_unfold.
  unfold known_mask.
  refine (conj _ (conj _ (conj _ _))).
  - (* fp16, guard passed and bucket bound *)
    intros MaxK Hbucket Hguard. rewrite Hbucket, Hguard.
    mask_cases param; unfold events; simpl; split; split; intros H;
      solve [reflexivity | discriminate H | lia | auto].
  - (* fp16, every call made *)
    intros c Hc.
    destruct (has_attn_bias param || negb (bias_has_grad param)); [|destruct Hc].
    destruct (headdim (K param) (Kv param)) as [MaxK|]; [|destruct Hc].
    exists MaxK. revert Hc.
    mask_cases param; unfold events; simpl; intros Hc;
      try (destruct Hc as [<-|[]]); try destruct Hc; auto 6.
  - (* bp16, a known mask type *)
    intros [E | [E | E]]; rewrite E; reflexivity.
  - (* bp16, every call made *)
    intros c. mask_cases param; unfold events; simpl; intros Hc;
      try (destruct Hc as [<-|[]]); try destruct Hc; auto.
Qed.

End BatchedBackwardFacts.

(** ** Unknown mask types *)

Module MaskCheckFacts.
Import Cxx Trace Switch MaskCheck.
Import BatchedBackward BatchedBackwardFacts.

(** The grouped inference path lets a mask type outside the enum through:
    at [custom_mask_type = 3] its [RunWithKernel] throws nothing and
    launches the kernel with [static_cast<CausalMaskType>(3)], so it does
    not reject unknown mask types. *)
Lemma grouped_infer_launches_unknown_mask :
  let param := Examples.grouped_param 3 0 in
  let run := GroupedInfer.RunWithKernel Examples.infer_kernel param Examples.stream0 in
  ~ known_mask param.(Grouped.custom_mask_type)
  /\ result run = inr tt
  /\ map (fun e => match e with
                   | GroupedInfer.launch_kernel _ _ _ _ _ kargs =>
                       kargs.(GroupedInfer.Kargs.mask_type)
                   end) (events run)
     = [GroupedInfer.static_cast_CausalMaskType 3]
  /\ ~ rejects_unknown_mask Grouped.custom_mask_type
         (fun p => GroupedInfer.RunWithKernel Examples.infer_kernel p Examples.stream0).
Proof.
  cbv zeta. split; [|split; [|split]].
  - unfold known_mask. simpl. lia.
  - reflexivity.
  - reflexivity.
  - intros Hrej.
    destruct (Hrej (Examples.grouped_param 3 0)) as [Hev _].
    + unfold known_mask. simpl. lia.
    + discriminate Hev.
Qed.

(** In the fp16 dispatcher the bias-gradient guard comes first: with a
    bias gradient and no bias, an unknown mask type is answered with the
    guard's message. *)
Lemma batched_backward_fp16_guard_before_mask :
  batched_backward_fp16 headdim_32_64_128
    {| K := 64; Kv := 64; custom_mask_type := 3;
       has_attn_bias := false; bias_has_grad := true |} Examples.stream0
  = throw (runtime_error bias_grad_what).
Proof. reflexivity. Qed.

(** C1, amended.  For a [custom_mask_type] that is none of 0, 1, 2:
    [batched_backward_bp16] throws ["Invalid custom_mask_type value"] and
    calls nothing; [batched_backward_fp16] calls nothing either, and
    throws that same error whenever its bias-gradient guard holds and the
    head-dimension switch binds a bucket (when the guard fails it throws
    the guard's error instead).  The grouped inference [RunWithKernel]
    makes no such check: it never throws a [std::runtime_error], and
    whenever the head ratio [Hq / Hkv] has a quotient it hands
    [static_cast<CausalMaskType>(custom_mask_type)] to the kernel arguments
    and launches (without a quotient the division ends the process before
    any launch). *)
Theorem unknown_mask_type_at_each_layer :
  forall headdim (param : BatchedBackwardParams) stream,
    ~ known_mask param.(custom_mask_type) ->
    batched_backward_bp16 param stream = throw (runtime_error invalid_mask_what)
    /\ events (batched_backward_fp16 headdim param stream) = []
    /\ (forall MaxK,
           param.(has_attn_bias) || negb param.(bias_has_grad) = true ->
           headdim param.(K) param.(Kv) = Some MaxK ->
           batched_backward_fp16 headdim param stream
           = throw (runtime_error invalid_mask_what))
    /\ (param.(has_attn_bias) || negb param.(bias_has_grad) = false ->
           batched_backward_fp16 headdim param stream
           = throw (runtime_error bias_grad_what))
    /\ (forall kernel (gparam : Grouped.GroupedForwardParams),
           (forall what,
               ~ throws (GroupedInfer.RunWithKernel kernel gparam stream)
                   (runtime_error what))
           /\ match Grouped.int_div gparam.(Grouped.Hq) gparam.(Grouped.Hkv) with
              | Some _ =>
                  exists grid kargs,
                    GroupedInfer.RunWithKernel kernel gparam stream
                    = emit (GroupedInfer.launch_kernel kernel stream false grid 0 kargs)
                    /\ kargs.(GroupedInfer.Kargs.mask_type)
                       = GroupedInfer.static_cast_CausalMaskType
                           gparam.(Grouped.custom_mask_type)
              | None =>
                  GroupedInfer.RunWithKernel kernel gparam stream
                  = throw (fatal_signal "SIGFPE")
              end).
Proof.
  intros headdim param stream Hunknown.
  destruct (unknown_mask_eqb _ Hunknown) as (E0 & E1 & E2).
  rewrite batched_backward_fp16_unfold, batched_backward_bp16_unfold.
  rewrite E0, E1, E2. simpl.
  split; [reflexivity|].
  split.
  { destruct (has_attn_bias param || negb (bias_has_grad param)); [|reflexivity].
    destruct (headdim (K param) (Kv param)); reflexivity. }
  split.
  { intros MaxK Hg Hb. rewrite Hg, Hb. reflexivity. }
  split.
  { intros Hg. rewrite Hg. reflexivity. }
  intros kernel gparam. unfold GroupedInfer.RunWithKernel, throws, result.
  destruct (Grouped.int_div (Grouped.Hq gparam) (Grouped.Hkv gparam)).
  - split; [intros what; simpl; discriminate|].
    eexists. eexists. split; reflexivity.
  - split; [intros what; simpl; discriminate | reflexivity].
Qed.

(** C1 at a struct with mask type 3, bias and head dimension 64. *)
Lemma unknown_mask_type_at_each_layer_witness :
  ~ known_mask (custom_mask_type Examples.bwd_mask3)
  /\ batched_backward_bp16 Examples.bwd_mask3 Examples.stream0
     = throw (runtime_error invalid_mask_what)
  /\ batched_backward_fp16 headdim_32_64_128 Examples.bwd_mask3 Examples.stream0
     = throw (runtime_error invalid_mask_what).
Proof.
  assert (Hunknown : ~ known_mask (custom_mask_type Examples.bwd_mask3)).
  { unfold known_mask. simpl. lia. }
  pose proof (unknown_mask_type_at_each_layer headdim_32_64_128
                Examples.bwd_mask3 Examples.stream0 Hunknown)
    as (Hbp & _ & Hfp & _).
  split; [exact Hunknown|].
  split; [exact Hbp|].
  apply (Hfp 64); reflexivity.
Defined.

End MaskCheckFacts.

(** ** Batched inference *)

Module BatchedInferFacts.
Import Cxx Trace BatchedInfer.
Import BatchedInfer.BatchedForwardParams.

Section WithDeviceOp.
Variable has_attn_bias : bool.
Context {ck : DeviceOp}.
Variable GetDeviceBuffer : Z -> ptr.

Lemma RunWithDeviceOp_cases op param stream :
  RunWithDeviceOp has_attn_bias GetDeviceBuffer op param stream =
  let arg := marshal has_attn_bias param in
  let prefix := [MakeArgumentPointer op arg;
                 SimpleDeviceMem (GetWorkSpaceSize op arg)] in
  if IsSupportedArgument op (checked_arg has_attn_bias GetDeviceBuffer op param)
  then (prefix ++ [invoker_Run op (checked_arg has_attn_bias GetDeviceBuffer op param)
                     stream false], inr tt)
  else (prefix, inl (runtime_error (unsupported_what (GetTypeString op)))).
Proof.
  unfold RunWithDeviceOp, checked_arg. cbv zeta.
  destruct (IsSupportedArgument op _); reflexivity.
Qed.
(** C2.  When the selected instantiation reports the marshaled
    argument unsupported, [RunWithDeviceOp] throws a [std::runtime_error]
    whose message is [GetTypeString()] followed by
    [" does not support this problem"] and the invoker is not run; the
    invoker runs (once, on that argument) exactly when
    [IsSupportedArgument] answers true. *)
Theorem RunWithDeviceOp_unsupported_argument :
  forall op param stream,
    let run := RunWithDeviceOp has_attn_bias GetDeviceBuffer op param stream in
    let arg := checked_arg has_attn_bias GetDeviceBuffer op param in
    (IsSupportedArgument op arg = false ->
       throws run (runtime_error
                     (GetTypeString op ++ " does not support this problem")%string)
       /\ invoked (events run) = [])
    /\ (invoked (events run) = [(op, arg)] <-> IsSupportedArgument op arg = true)
    /\ (invoked (events run) <> [] <-> IsSupportedArgument op arg = true)
    /\ (IsSupportedArgument op arg = true -> result run = inr tt).
Proof.
  intros op param stream run arg. subst run arg.
  rewrite RunWithDeviceOp_cases. cbv zeta.
  destruct (IsSupportedArgument op _) eqn:Hs; unfold throws, result, events, invoked;
    simpl.
  - repeat split; try discriminate; auto.
  - repeat split; try discriminate; auto.
Qed.

(** C5.  [Run] selects exactly one tile configuration for every [K] and
    [Kv]: [kGemm1NPerBlock] is 32 exactly when both are at most 32,
    otherwise 64 exactly when both are at most 64, otherwise 128.  [Run]
    itself raises nothing and skips nothing: it is [RunWithDeviceOp] at
    the selected instance, also when [K] or [Kv] exceeds 128. *)
Theorem Run_selects_one_tile :
  forall scalar_t custom_mask_type param stream,
    let run :=
      Run scalar_t custom_mask_type has_attn_bias GetDeviceBuffer param stream in
    exists n,
      run = RunWithDeviceOp has_attn_bias GetDeviceBuffer
              (DeviceOpInstanceTemp scalar_t custom_mask_type has_attn_bias
                 n (n / 32) (n / 32))
              param stream
      /\ map kGemm1NPerBlock (instantiated (events run)) = [n]
      /\ (n = 32 <-> param.(K) <= 32 /\ param.(Kv) <= 32)
      /\ (n = 64 <-> ~ (param.(K) <= 32 /\ param.(Kv) <= 32)
                     /\ param.(K) <= 64 /\ param.(Kv) <= 64)
      /\ (n = 128 <-> ~ (param.(K) <= 32 /\ param.(Kv) <= 32)
                      /\ ~ (param.(K) <= 64 /\ param.(Kv) <= 64)).
Proof.
  intros scalar_t custom_mask_type param stream run. subst run.
  unfold Run.
  destruct ((K param <=? 32) && (Kv param <=? 32)) eqn:H32;
    [|destruct ((K param <=? 64) && (Kv param <=? 64)) eqn:H64].
  - exists 32. apply andb_true_iff in H32. destruct H32 as [Hk Hv].
    apply Z.leb_le in Hk, Hv.
    split; [reflexivity|].
    split; [rewrite RunWithDeviceOp_cases; cbv zeta;
            destruct (IsSupportedArgument _ _); reflexivity|].
    repeat split; intros; try lia.
  - exists 64. apply andb_true_iff in H64. destruct H64 as [Hk Hv].
    apply Z.leb_le in Hk, Hv.
    apply andb_false_iff in H32.
    rewrite !Z.leb_gt in H32.
    split; [reflexivity|].
    split; [rewrite RunWithDeviceOp_cases; cbv zeta;
            destruct (IsSupportedArgument _ _); reflexivity|].
    repeat split; intros; try lia.
  - exists 128.
    apply andb_false_iff in H32, H64.
    rewrite !Z.leb_gt in H32, H64.
    split; [reflexivity|].
    split; [rewrite RunWithDeviceOp_cases; cbv zeta;
            destruct (IsSupportedArgument _ _); reflexivity|].
    repeat split; intros; try lia.
Qed.

(** C6, amended.  [RunWithDeviceOp] marshals the struct as follows: Q
    lengths [{B, num_heads, M, K}] with strides
    [{q_strides[0], q_strides[2], q_strides[1], q_strides[3]}]; V lengths
    [{B, num_heads, Kv, N}] with strides
    [{v_strides[0], v_strides[2], v_strides[3], v_strides[1]}]; the
    [Scale] operator receives [param.scale]; when the template flag
    [has_attn_bias] is off the bias lengths are [{1,1,1,1}] and the bias
    strides [{0,0,0,0}], and when the struct's [param.has_attn_bias] is off
    the bias pointer is null: two tests, each on its own flag. *)
Theorem RunWithDeviceOp_marshals :
  forall op param stream,
    let run := RunWithDeviceOp has_attn_bias GetDeviceBuffer op param stream in
    handed_over (events run) <> []
    /\ forall arg, In arg (handed_over (events run)) ->
         arg.(a_gs_ms_ks_lengths)
         = [param.(B); param.(num_heads); param.(M); param.(K)]
         /\ arg.(a_gs_ms_ks_strides)
            = [param.(q_strides).[0]; param.(q_strides).[2];
               param.(q_strides).[1]; param.(q_strides).[3]]
         /\ arg.(b1_gs_os_ns_lengths)
            = [param.(B); param.(num_heads); param.(Kv); param.(N)]
         /\ arg.(b1_gs_os_ns_strides)
            = [param.(v_strides).[0]; param.(v_strides).[2];
               param.(v_strides).[3]; param.(v_strides).[1]]
         /\ arg.(acc0_element_op) = Scale_ param.(scale)
         /\ (has_attn_bias = false ->
               arg.(d_gs_ms_ns_lengths) = [1; 1; 1; 1]
               /\ arg.(d_gs_ms_ns_strides) = [0; 0; 0; 0])
         /\ (param.(BatchedForwardParams.has_attn_bias) = false ->
               arg.(p_acc0_bias) = nullptr).
Proof.
  intros op param stream run. subst run.
  rewrite RunWithDeviceOp_cases. cbv zeta.
  assert (Hfields : forall arg,
             arg = marshal has_attn_bias param
             \/ arg = checked_arg has_attn_bias GetDeviceBuffer op param ->
             arg.(a_gs_ms_ks_lengths)
             = [param.(B); param.(num_heads); param.(M); param.(K)]
             /\ arg.(a_gs_ms_ks_strides)
                = [param.(q_strides).[0]; param.(q_strides).[2];
                   param.(q_strides).[1]; param.(q_strides).[3]]
             /\ arg.(b1_gs_os_ns_lengths)
                = [param.(B); param.(num_heads); param.(Kv); param.(N)]
             /\ arg.(b1_gs_os_ns_strides)
                = [param.(v_strides).[0]; param.(v_strides).[2];
                   param.(v_strides).[3]; param.(v_strides).[1]]
             /\ arg.(acc0_element_op) = Scale_ param.(scale)
             /\ (has_attn_bias = false ->
                   arg.(d_gs_ms_ns_lengths) = [1; 1; 1; 1]
                   /\ arg.(d_gs_ms_ns_strides) = [0; 0; 0; 0])
             /\ (param.(BatchedForwardParams.has_attn_bias) = false ->
                   arg.(p_acc0_bias) = nullptr)).
  { intros arg [-> | ->]; unfold checked_arg; simpl;
      repeat apply conj; try reflexivity; intros Hb; rewrite Hb;
      try apply conj; reflexivity. }
  destruct (IsSupportedArgument op _); unfold events, handed_over; simpl.
  - split; [discriminate|]. intros arg [<- | [<- | []]]; apply Hfields; auto.
  - split; [discriminate|]. intros arg [<- | []]; apply Hfields; auto.
Qed.
End WithDeviceOp.

(** The two bias flags are tested separately.  With the template flag off
    and the struct's flag on, the bias lengths and strides are
    [{1,1,1,1}] and [{0,0,0,0}] but the pointer passed is the struct's, not
    null; with the template flag on and the struct's flag off, the pointer
    is null but the lengths and strides are the struct's. *)
Lemma bias_flags_tested_separately :
  map (fun arg => (arg.(p_acc0_bias), arg.(d_gs_ms_ns_lengths), arg.(d_gs_ms_ns_strides)))
    (handed_over
       (events (RunWithDeviceOp (ck := Examples.toy_ck) false (fun _ => 4096%N)
                  (DeviceOpInstanceTemp half_t 0 false 64 2 2)
                  (Examples.infer_param 64 64 true) Examples.stream0)))
  = [(20480%N, [1; 1; 1; 1], [0; 0; 0; 0]); (20480%N, [1; 1; 1; 1], [0; 0; 0; 0])]
  /\ 20480%N <> nullptr
  /\ map (fun arg => (arg.(p_acc0_bias), arg.(d_gs_ms_ns_lengths),
                      arg.(d_gs_ms_ns_strides)))
       (handed_over
          (events (RunWithDeviceOp (ck := Examples.toy_ck) true (fun _ => 4096%N)
                     (DeviceOpInstanceTemp half_t 0 true 64 2 2)
                     (Examples.infer_param 64 64 false) Examples.stream0)))
     = [(nullptr, [2; 8; 512; 256], [51; 52; 53; 54]);
        (nullptr, [2; 8; 512; 256], [51; 52; 53; 54])]
  /\ [2; 8; 512; 256] <> [1; 1; 1; 1].
Proof.
  split; [reflexivity|]. split; [discriminate|].
  split; [reflexivity|]. discriminate.
Qed.

(** C2 at a device op that refuses head dimension 256 on its 128-wide tile. *)
Lemma RunWithDeviceOp_unsupported_argument_witness :
  throws (RunWithDeviceOp (ck := Examples.toy_ck) false (fun _ => 4096%N)
            (DeviceOpInstanceTemp half_t 0 false 128 4 4)
            (Examples.infer_param 256 256 false) Examples.stream0)
         (runtime_error
            "DeviceBatchedMultiheadAttentionInfer_Xdl_CShuffle does not support this problem").
Proof.
  apply (RunWithDeviceOp_unsupported_argument (ck := Examples.toy_ck) false
           (fun _ => 4096%N) (DeviceOpInstanceTemp half_t 0 false 128 4 4)
           (Examples.infer_param 256 256 false) Examples.stream0).
  reflexivity.
Defined.

End BatchedInferFacts.

(** ** Grouped inference and grouped forward *)

Module GroupedFacts.
Import Cxx Trace Switch FwdSetting Grouped.

(** The inference [Run] always reaches [RunWithKernel], with one kernel. *)
Lemma infer_Run_launches scalar_t has_causal_mask has_attn_bias MaxK param stream :
  exists kernel,
    GroupedInfer.Run scalar_t has_causal_mask has_attn_bias MaxK param stream
    = GroupedInfer.RunWithKernel kernel param stream
    /\ kernel.(Mask)
       = GenericAttentionMask (has_causal_mask || (param.(window_size) >? 0))
           (param.(window_size) >? 0).
Proof.
  unfold GroupedInfer.Run, BOOL_SWITCH_3, BOOL_SWITCH_2, BOOL_SWITCH.
  destruct (window_size param >? 0);
    destruct (f32_gt_zero (dropout_prob param));
    destruct (negb (Z.rem (K param) (kK0BlockLength MaxK) =? 0));
    destruct (negb (Z.rem (Kv param) (kN1 MaxK) =? 0));
    eexists; split; reflexivity.
Qed.

(** The forward [Run] always reaches [RunWithKernel], with one kernel,
    whose mask is the simplified one with masking switched on by the
    causal flag or by local attention. *)
Lemma forward_Run_launches ScalarType kHasCausalMask kHasBias kHasDropout MaxK
    param stream :
  exists kernel,
    GroupedForward.Run ScalarType kHasCausalMask kHasBias kHasDropout MaxK param stream
    = GroupedForward.RunWithKernel kernel param stream
    /\ kernel.(Mask)
       = SimplifiedGenericAttentionMask (kHasCausalMask || (param.(window_size) >? 0)).
Proof.
  unfold GroupedForward.Run, BOOL_SWITCH_2, BOOL_SWITCH.
  destruct (window_size param >? 0);
    destruct (negb (Z.rem (K param) (kK0BlockLength MaxK) =? 0));
    destruct (negb (Z.rem (Kv param) (kN1 MaxK) =? 0));
    eexists; split; reflexivity.
Qed.

(** What [int_div] answers. *)
Lemma int_div_spec (a b : Z) :
  match int_div a b with
  | Some q => b <> 0 /\ ~ (a = - 2 ^ 31 /\ b = -1) /\ q = Z.quot a b
  | None => b = 0 \/ (a = - 2 ^ 31 /\ b = -1)
  end.
Proof.
  unfold int_div.
  destruct (Z.eqb_spec b 0) as [Hb | Hb];
    destruct (Z.eqb_spec a (- 2 ^ 31)) as [Ha | Ha];
    destruct (Z.eqb_spec b (-1)) as [Hb1 | Hb1];
    cbn [orb andb];
    first [ left; exact Hb
          | right; split; assumption
          | split; [exact Hb | split; [intros [? ?]; contradiction | reflexivity]] ].
Qed.

(** C9.  Whatever the struct holds for [philox_seed], [philox_offset] and
    [dropout_prob], the grouped inference dispatch launches with seed and
    offset [{0, 0}], [is_store_randval = false], a null LSE pointer and
    zero for every LSE and randval stride; the grouped forward dispatch
    launches with the struct's [philox_seed] and [philox_offset].  Each
    launches once, whenever the head ratio [Hq / Hkv] has a quotient;
    without one the division ends the process before any launch. *)
Theorem grouped_infer_drops_philox_state :
  forall scalar_t has_causal_mask has_attn_bias kHasDropout MaxK param stream,
    match int_div param.(Hq) param.(Hkv) with
    | Some _ =>
        (exists kernel grid kargs,
            GroupedInfer.Run scalar_t has_causal_mask has_attn_bias MaxK param stream
            = emit (GroupedInfer.launch_kernel kernel stream false grid 0 kargs)
            /\ kargs.(GroupedInfer.Kargs.drop_seed_offset) = (0, 0)
            /\ kargs.(GroupedInfer.Kargs.is_store_randval) = false
            /\ kargs.(GroupedInfer.Kargs.lse_ptr) = nullptr
            /\ kargs.(GroupedInfer.Kargs.nhead_stride_lse) = 0
            /\ kargs.(GroupedInfer.Kargs.batch_stride_lse) = 0
            /\ kargs.(GroupedInfer.Kargs.stride_randval) = 0
            /\ kargs.(GroupedInfer.Kargs.nhead_stride_randval) = 0
            /\ kargs.(GroupedInfer.Kargs.p_drop) = param.(dropout_prob))
        /\
        (exists kernel grid kargs,
            GroupedForward.Run scalar_t has_causal_mask has_attn_bias kHasDropout MaxK
              param stream
            = emit (GroupedForward.launch_kernel kernel stream false grid 0 kargs)
            /\ kargs.(GroupedForward.Kargs.drop_seed_offset)
               = (param.(philox_seed), param.(philox_offset))
            /\ kargs.(GroupedForward.Kargs.lse_ptr) = param.(logsumexp_ptr))
    | None =>
        GroupedInfer.Run scalar_t has_causal_mask has_attn_bias MaxK param stream
        = throw (fatal_signal "SIGFPE")
        /\ GroupedForward.Run scalar_t has_causal_mask has_attn_bias kHasDropout MaxK
             param stream
           = throw (fatal_signal "SIGFPE")
    end.
Proof.
  intros scalar_t has_causal_mask has_attn_bias kHasDropout MaxK param stream.
  destruct (infer_Run_launches scalar_t has_causal_mask has_attn_bias MaxK
              param stream) as (ki & -> & _).
  destruct (forward_Run_launches scalar_t has_causal_mask has_attn_bias
              kHasDropout MaxK param stream) as (kf & -> & _).
  unfold GroupedInfer.RunWithKernel, GroupedForward.RunWithKernel.
  destruct (int_div (Hq param) (Hkv param)) as [ratio|].
  - split.
    + exists ki. eexists. eexists. split; [reflexivity|].
      repeat apply conj; reflexivity.
    + exists kf. eexists. eexists. split; [reflexivity|].
      repeat apply conj; reflexivity.
  - split; reflexivity.
Qed.

(** C10.  In the grouped forward dispatch the kernel argument
    [window_left_size] is [window_size - 1] when [window_size > 0] and -1
    otherwise, and [window_right_size] is -1 exactly when
    [custom_mask_type == 0] and 0 otherwise; local attention
    ([window_size > 0]) selects the masked pipeline even when the causal
    template flag is off.  The dispatch launches once, whenever the head
    ratio [Hq / Hkv] has a quotient; without one the division ends the
    process before any launch. *)
Theorem grouped_forward_window_sizes :
  forall ScalarType kHasCausalMask kHasBias kHasDropout MaxK param stream,
    match int_div param.(Hq) param.(Hkv) with
    | Some _ =>
        exists kernel grid kargs,
          GroupedForward.Run ScalarType kHasCausalMask kHasBias kHasDropout MaxK
            param stream
          = emit (GroupedForward.launch_kernel kernel stream false grid 0 kargs)
          /\ (param.(window_size) > 0 ->
                kargs.(GroupedForward.Kargs.window_left_size) = param.(window_size) - 1)
          /\ (param.(window_size) <= 0 ->
                kargs.(GroupedForward.Kargs.window_left_size) = -1)
          /\ (kargs.(GroupedForward.Kargs.window_right_size) = -1
                <-> param.(custom_mask_type) = 0)
          /\ (param.(custom_mask_type) <> 0 ->
                kargs.(GroupedForward.Kargs.window_right_size) = 0)
          /\ is_masking kernel.(Mask) = kHasCausalMask || (param.(window_size) >? 0)
          /\ (param.(window_size) > 0 -> is_masking kernel.(Mask) = true)
    | None =>
        GroupedForward.Run ScalarType kHasCausalMask kHasBias kHasDropout MaxK
          param stream
        = throw (fatal_signal "SIGFPE")
    end.
Proof.
  intros ScalarType kHasCausalMask kHasBias kHasDropout MaxK param stream.
  destruct (forward_Run_launches ScalarType kHasCausalMask kHasBias kHasDropout
              MaxK param stream) as (kernel & -> & Hmask).
  unfold GroupedForward.RunWithKernel.
  destruct (int_div (Hq param) (Hkv param)) as [ratio|]; [|reflexivity].
  exists kernel.
  eexists. eexists. split; [reflexivity|].
  rewrite Hmask. simpl.
  repeat apply conj.
  - intros Hw. apply Z.gt_lt, Z.gtb_lt in Hw. rewrite Hw. reflexivity.
  - intros Hw. destruct (Z.gtb_spec (window_size param) 0) as [Hlt|_]; [lia|reflexivity].
  - destruct (Z.eqb_spec (custom_mask_type param) 0); [auto | discriminate].
  - intros ->. reflexivity.
  - intros Hm. apply Z.eqb_neq in Hm. rewrite Hm. reflexivity.
  - reflexivity.
  - intros Hw. apply Z.gt_lt, Z.gtb_lt in Hw. rewrite Hw. apply orb_true_r.
Qed.

End GroupedFacts.

(** ** Random integers *)

Module RandUniformFacts.
Import Cxx Trace RandUniform.

(** [int] arithmetic. *)
Lemma to_int_small z : 0 <= z < 2 ^ 31 -> to_int z = z.
Proof. intros H. unfold to_int. rewrite Z.mod_small; lia. Qed.

Lemma to_int_mul_l a c : to_int (to_int a * c) = to_int (a * c).
Proof.
  unfold to_int.
  rewrite (Z.mod_eq (a + 2 ^ 31) (2 ^ 32)) by lia.
  set (q := (a + 2 ^ 31) / 2 ^ 32).
  replace ((a + 2 ^ 31 - 2 ^ 32 * q - 2 ^ 31) * c + 2 ^ 31)
    with (a * c + 2 ^ 31 + (- q * c) * 2 ^ 32) by ring.
  rewrite Z.mod_add by lia. reflexivity.
Qed.

Lemma int_mul_product a b c d :
  int_mul (int_mul (int_mul a b) c) d = to_int (a * b * c * d).
Proof.
  unfold int_mul. rewrite to_int_mul_l.
  rewrite <- (Z.mul_assoc (to_int (a * b)) c d), to_int_mul_l.
  f_equal. ring.
Qed.

Lemma to_uint64_small z : 0 <= z < 2 ^ 64 -> to_uint64 z = z.
Proof. intros H. unfold to_uint64. apply Z.mod_small. exact H. Qed.

(** Going through [int64_t] loses nothing of a [uint64_t]. *)
Lemma to_uint64_to_int64 z : to_uint64 (to_int64 z) = to_uint64 z.
Proof.
  unfold to_uint64, to_int64.
  rewrite (Z.mod_eq (z + 2 ^ 63) (2 ^ 64)) by lia.
  set (q := (z + 2 ^ 63) / 2 ^ 64).
  replace (z + 2 ^ 63 - 2 ^ 64 * q - 2 ^ 63) with (z + (- q) * 2 ^ 64) by ring.
  apply Z.mod_add. lia.
Qed.

Section WithFramework.
Context `{fw : Framework}.
Variable philox : Z * Z -> list Z -> list Z -> Z.

(** The function on a pattern of at least four dimensions, step by step. *)
Lemma rand_uniform_int_cases dropout_prob out_pattern host s0 s1 s2 s3 more :
  out_pattern.(sizes) = s0 :: s1 :: s2 :: s3 :: more ->
  rand_uniform_int philox dropout_prob out_pattern host =
  let B := to_int s0 in
  let num_heads := to_int s1 in
  let M := to_int s2 in
  let N := to_int s3 in
  let stream := host.(getCurrentHIPStream) in
  let gen := host.(getDefaultCUDAGenerator) in
  let increment := to_uint64 (int_mul (int_mul (int_mul B num_heads) M) N) in
  let seeds := unpack (philox_cuda_state gen increment) in
  let opts := with_dtype out_pattern.(options) Int in
  let randvals :=
    {| sizes := [B; num_heads; M; N];
       strides := empty_strides [B; num_heads; M; N];
       options := opts;
       data_ptr := host.(fresh_storage);
       elements := host.(uninitialized) |} in
  let kargs :=
    {| Kargs.rand_val_ptr := host.(fresh_storage);
       Kargs.seqlen_q := M;
       Kargs.seqlen_k := N;
       Kargs.num_heads := num_heads;
       Kargs.num_batches := B;
       Kargs.stride_seqlen_q := to_int (stride randvals 2);
       Kargs.stride_seqlen_k := to_int (stride randvals 3);
       Kargs.stride_nhead := to_int (stride randvals 1);
       Kargs.stride_batch := to_int (stride randvals 0);
       Kargs.philox_seed_offset := (to_int64 (fst seeds), to_int64 (snd seeds)) |} in
  if existsb (fun z => z <? 0) [B; num_heads; M; N]
  then ([lock_philox_cuda_state gen increment;
         at_empty [B; num_heads; M; N] opts],
        inl (foreign_error "at::empty"))
  else ([lock_philox_cuda_state gen increment;
         at_empty [B; num_heads; M; N] opts;
         launch_kernel FmhaRandUniformKernel_ stream false (B, num_heads, M, N) 0 kargs;
         hipStreamSynchronize stream],
        inr (filled philox randvals kargs)).
Proof.
  intros Hs. unfold rand_uniform_int, size. rewrite Hs.
  cbv beta iota zeta delta [nth_error empty].
  rewrite !TraceFacts.bind_ret_l.
  destruct (existsb (fun z => z <? 0) [to_int s0; to_int s1; to_int s2; to_int s3])
    eqn:Hneg.
  - reflexivity.
  - reflexivity.
Qed.

(** On a pattern of fewer than four dimensions the framework's [size]
    raises before anything else happens. *)
Lemma rand_uniform_int_short dropout_prob out_pattern host :
  (List.length out_pattern.(sizes) < 4)%nat ->
  rand_uniform_int philox dropout_prob out_pattern host
  = throw (foreign_error "at::Tensor::size").
Proof.
  intros Hlen. unfold rand_uniform_int, size.
  destruct (sizes out_pattern) as [|s0 [|s1 [|s2 [|s3 more]]]];
    simpl in *; try lia; reflexivity.
Qed.

(** X22.  For a four-dimensional pattern whose sizes each fit in an [int]
    and whose number of elements is below [2^31], [rand_uniform_int]
    returns the tensor [at::empty] made for it, of shape
    [[size(0), size(1), size(2), size(3)]] and element type [Int]; it asks
    the default generator once, for an increment of exactly the number of
    elements; and the seed and offset unpacked from the state it got are
    the ones in the kernel arguments. *)
Theorem rand_uniform_int_shape_and_state :
  forall dropout_prob out_pattern host s0 s1 s2 s3,
    out_pattern.(sizes) = [s0; s1; s2; s3] ->
    0 <= s0 < 2 ^ 31 -> 0 <= s1 < 2 ^ 31 ->
    0 <= s2 < 2 ^ 31 -> 0 <= s3 < 2 ^ 31 ->
    s0 * s1 * s2 * s3 < 2 ^ 31 ->
    let run := rand_uniform_int philox dropout_prob out_pattern host in
    let seeds :=
      unpack (philox_cuda_state host.(getDefaultCUDAGenerator) (s0 * s1 * s2 * s3)) in
    exists randvals kargs,
      result run = inr randvals
      /\ randvals.(sizes) = [s0; s1; s2; s3]
      /\ randvals.(options).(dtype) = Int
      /\ randvals.(data_ptr) = host.(fresh_storage)
      /\ In (at_empty [s0; s1; s2; s3] (with_dtype out_pattern.(options) Int))
            (events run)
      /\ requested_increments (events run) = [s0 * s1 * s2 * s3]
      /\ launched_kargs (events run) = [kargs]
      /\ kargs.(Kargs.philox_seed_offset)
         = (to_int64 (fst seeds), to_int64 (snd seeds))
      /\ to_uint64 (fst kargs.(Kargs.philox_seed_offset)) = to_uint64 (fst seeds)
      /\ to_uint64 (snd kargs.(Kargs.philox_seed_offset)) = to_uint64 (snd seeds).
Proof.
  intros dropout_prob out_pattern host s0 s1 s2 s3 Hs H0 H1 H2 H3 Hsmall run seeds.
  subst run. rewrite (rand_uniform_int_cases _ _ _ s0 s1 s2 s3 [] Hs). cbv zeta.
  rewrite int_mul_product.
  rewrite !(to_int_small s0), !(to_int_small s1), !(to_int_small s2),
    !(to_int_small s3) by assumption.
  assert (Hneg : existsb (fun z => z <? 0) [s0; s1; s2; s3] = false).
  { simpl. repeat (rewrite (proj2 (Z.ltb_ge _ 0)) by lia). reflexivity. }
  assert (Hinc : to_uint64 (to_int (s0 * s1 * s2 * s3)) = s0 * s1 * s2 * s3).
  { assert (0 <= s0 * s1 * s2 * s3) by (repeat apply Z.mul_nonneg_nonneg; lia).
    rewrite to_int_small by lia. apply to_uint64_small. lia. }
  rewrite Hneg, Hinc. fold seeds.
  eexists. eexists.
  split; [reflexivity|].
  split; [reflexivity|].
  split; [reflexivity|].
  split; [reflexivity|].
  split; [simpl; auto|].
  split; [reflexivity|].
  split; [reflexivity|].
  split; [reflexivity|].
  split; apply to_uint64_to_int64.
Qed.

End WithFramework.

(** C7.  The increment asked of the generator is meant to be the number
    of elements [B * num_heads * M * N], but the product is formed in
    [int]: at shape [8 x 32 x 4096 x 4096] the number of elements is
    [2^32], and the increment the function asks the generator for is 0. *)
Lemma rand_uniform_int_increment_wraps :
  requested_increments
    (events (rand_uniform_int (fw := Examples.torch) Examples.toy_philox 0
               (Examples.pattern [8; 32; 4096; 4096] Half)
               (Examples.host_at 4096%N 0%N)))
  = [0]
  /\ 8 * 32 * 4096 * 4096 = 4294967296.
Proof. split; vm_compute; reflexivity. Qed.

Lemma rand_uniform_int_shape_and_state_witness :
  exists randvals,
    result (rand_uniform_int (fw := Examples.torch) Examples.toy_philox 0
              (Examples.pattern [2; 8; 512; 256] Half) (Examples.host_at 4096%N 0%N))
    = inr randvals
    /\ randvals.(sizes) = [2; 8; 512; 256]
    /\ requested_increments
         (events (rand_uniform_int (fw := Examples.torch) Examples.toy_philox 0
                    (Examples.pattern [2; 8; 512; 256] Half)
                    (Examples.host_at 4096%N 0%N)))
       = [2097152].
Proof.
  destruct (rand_uniform_int_shape_and_state (fw := Examples.torch)
              Examples.toy_philox 0 (Examples.pattern [2; 8; 512; 256] Half)
              (Examples.host_at 4096%N 0%N) 2 8 512 256 eq_refl
              ltac:(lia) ltac:(lia) ltac:(lia) ltac:(lia) ltac:(lia))
    as (randvals & kargs & Hres & Hsz & _ & _ & _ & Hinc & _).
  exists randvals. split; [exact Hres|]. split; [exact Hsz|]. exact Hinc.
Defined.


End RandUniformFacts.

(** ** The dispatchers at concrete inputs *)

Module Checks.
Import Cxx Trace.

Example bp16_causal_with_bias :
  BatchedBackward.batched_backward_bp16 Examples.bwd_causal Examples.stream0
  = emit (BatchedBackward.batched_backward_masktype_attnbias_dispatched
            bhalf_t 1 true Examples.bwd_causal Examples.stream0).
Proof. reflexivity. Qed.

Example fp16_causal_with_bias_grad :
  BatchedBackward.batched_backward_fp16 BatchedBackward.headdim_32_64_128
    Examples.bwd_causal Examples.stream0
  = emit (BatchedBackward.run_batched_backward_causalmask_attnbias_dispatched
            half_t true true true 64 Examples.bwd_causal Examples.stream0).
Proof. reflexivity. Qed.

(** Head dimension 256 goes to the 128-wide tile, which the device op of
    the example then refuses. *)
Example batched_infer_headdim_256 :
  BatchedInfer.Run (ck := Examples.toy_ck) half_t 0 false (fun _ => 4096%N)
    (Examples.infer_param 256 256 false) Examples.stream0
  = ([BatchedInfer.MakeArgumentPointer
        (BatchedInfer.DeviceOpInstanceTemp half_t 0 false 128 4 4)
        (BatchedInfer.marshal false (Examples.infer_param 256 256 false));
      BatchedInfer.SimpleDeviceMem 0],
     inl (runtime_error
            "DeviceBatchedMultiheadAttentionInfer_Xdl_CShuffle does not support this problem")).
Proof. reflexivity. Qed.

Example batched_infer_headdim_40_64 :
  map BatchedInfer.kGemm1NPerBlock
    (BatchedInfer.instantiated
       (events (BatchedInfer.Run (ck := Examples.toy_ck) half_t 0 false
                  (fun _ => 4096%N) (Examples.infer_param 40 64 false)
                  Examples.stream0)))
  = [64]
  /\ result (BatchedInfer.Run (ck := Examples.toy_ck) half_t 0 false
               (fun _ => 4096%N) (Examples.infer_param 40 64 false) Examples.stream0)
     = inr tt.
Proof. split; reflexivity. Qed.

Example batched_infer_strides :
  let arg := BatchedInfer.marshal false (Examples.infer_param 64 64 false) in
  arg.(BatchedInfer.a_gs_ms_ks_strides) = [11; 13; 12; 14]
  /\ arg.(BatchedInfer.b1_gs_os_ns_strides) = [31; 33; 34; 32]
  /\ arg.(BatchedInfer.b1_gs_os_ns_lengths) = [2; 8; 64; 256]
  /\ arg.(BatchedInfer.d_gs_ms_ns_lengths) = [1; 1; 1; 1]
  /\ arg.(BatchedInfer.p_acc0_bias) = nullptr.
Proof. repeat split. Qed.

(** The kernel of [Examples.infer_kernel] is the one the inference [Run]
    assembles. *)
Example grouped_infer_run :
  GroupedInfer.Run half_t false false FwdSetting.MaxK_128
    (Examples.grouped_param 3 0) Examples.stream0
  = GroupedInfer.RunWithKernel Examples.infer_kernel
      (Examples.grouped_param 3 0) Examples.stream0.
Proof. reflexivity. Qed.

(** A window of 4 without causal mask: masked pipeline, left size 3, right
    size -1, and the struct's Philox state in the arguments. *)
Example grouped_forward_local_attention :
  map (fun e => match e with
                | GroupedForward.launch_kernel kernel _ _ _ _ kargs =>
                    (Grouped.is_masking kernel.(Grouped.Mask),
                     kargs.(GroupedForward.Kargs.window_left_size),
                     kargs.(GroupedForward.Kargs.window_right_size),
                     kargs.(GroupedForward.Kargs.drop_seed_offset))
                end)
    (events (GroupedForward.Run half_t false false true FwdSetting.MaxK_128
               (Examples.grouped_param 0 4) Examples.stream0))
  = [(true, 3, -1, (42, 1000))].
Proof. reflexivity. Qed.

Example rand_uniform_small :
  map (fun e => match e with
                | RandUniform.launch_kernel _ _ _ grid _ kargs =>
                    [(grid, kargs.(RandUniform.Kargs.philox_seed_offset),
                      kargs.(RandUniform.Kargs.stride_batch))]
                | _ => []
                end)
    (events (RandUniform.rand_uniform_int (fw := Examples.torch) Examples.toy_philox 0
               (Examples.pattern [2; 8; 512; 256] RandUniform.Half)
               (Examples.host_at 4096%N 0%N)))
  = [[]; []; [((2, 8, 512, 256), (42, 1000), 1048576)]; []].
Proof. vm_compute. reflexivity. Qed.

End Checks.

(** ** More on the batched backward dispatchers *)

Module BatchedBackwardMore.
Import Cxx Trace Switch BatchedBackward MaskCheck BatchedBackwardFacts Instantiations.

(** The guard of the fp16 dispatcher leaves exactly the three bias
    combinations the file declares. *)
Lemma guard_combinations (bias grad : bool) :
  bias || negb grad = true ->
  (bias, grad) = (true, true) \/ (bias, grad) = (true, false)
  \/ (bias, grad) = (false, false).
Proof. destruct bias, grad; simpl; intros H; auto; discriminate H. Qed.

Lemma declared_iff causal bias grad MaxK :
  In (causal, bias, grad, MaxK) extern_templates <->
  bias || negb grad = true /\ (MaxK = 32 \/ MaxK = 64 \/ MaxK = 128).
Proof.
  split.
  - unfold extern_templates. simpl. intros H.
    repeat (destruct H as [H | H]; [inversion H; subst; simpl; auto |]).
    destruct H.
  - intros [Hg Hm].
    destruct (guard_combinations _ _ Hg) as [E | [E | E]]; inversion E; subst;
      destruct Hm as [-> | [-> | ->]]; destruct causal;
      unfold extern_templates; simpl; repeat (first [left; reflexivity | right]).
Qed.

(** X1.  With a head-dimension switch whose buckets are 32, 64 and 128,
    every call [batched_backward_fp16] makes is one of the instantiations
    the file declares [extern template]: the guard on the bias gradient
    keeps the dispatcher off the combination (no bias, bias gradient) that
    has no declaration. *)
Theorem batched_backward_fp16_calls_declared :
  forall headdim param stream c,
    (forall k kv MaxK, headdim k kv = Some MaxK ->
       MaxK = 32 \/ MaxK = 64 \/ MaxK = 128) ->
    In c (events (batched_backward_fp16 headdim param stream)) ->
    exists targs, In targs extern_templates /\ c = fp16_call targs param stream.
Proof.
  intros headdim param stream c Hbuckets.
  rewrite batched_backward_fp16_unfold.
  destruct (has_attn_bias param || negb (bias_has_grad param)) eqn:Hguard;
    [|intros []].
  destruct (headdim (K param) (Kv param)) as [MaxK|] eqn:Hb; [|intros []].
  specialize (Hbuckets _ _ _ Hb).
  mask_cases param; unfold events; simpl; intros Hc;
    try (destruct Hc as [<-|[]]); try destruct Hc.
  - exists (false, has_attn_bias param, bias_has_grad param, MaxK).
    split; [apply declared_iff; auto | reflexivity].
  - exists (true, has_attn_bias param, bias_has_grad param, MaxK).
    split; [apply declared_iff; auto | reflexivity].
  - exists (true, has_attn_bias param, bias_has_grad param, MaxK).
    split; [apply declared_iff; auto | reflexivity].
Qed.

Lemma batched_backward_fp16_calls_declared_witness :
  exists targs,
    In targs extern_templates
    /\ run_batched_backward_causalmask_attnbias_dispatched
         half_t true true true 64 Examples.bwd_causal Examples.stream0
       = fp16_call targs Examples.bwd_causal Examples.stream0.
Proof.
  apply (batched_backward_fp16_calls_declared headdim_32_64_128
           Examples.bwd_causal Examples.stream0).
  - intros k kv MaxK. unfold headdim_32_64_128.
    destruct ((k <=? 32) && (kv <=? 32)); [intros H; inversion H; auto|].
    destruct ((k <=? 64) && (kv <=? 64)); [intros H; inversion H; auto|].
    destruct ((k <=? 128) && (kv <=? 128)); [intros H; inversion H; auto|].
    discriminate.
  - simpl. left. reflexivity.
Defined.

(** X2.  No declared instantiation is dead: with a head-dimension switch
    that reaches each of the buckets 32, 64 and 128, every instantiation
    the fp16 file declares is the one call of [batched_backward_fp16] for
    some struct. *)
Theorem batched_backward_fp16_reaches_declared :
  forall headdim stream targs,
    (forall MaxK, In MaxK [32; 64; 128] -> exists k kv, headdim k kv = Some MaxK) ->
    In targs extern_templates ->
    exists param,
      batched_backward_fp16 headdim param stream = emit (fp16_call targs param stream).
Proof.
  intros headdim stream [[[causal bias] grad] MaxK] Hreach Hin.
  apply declared_iff in Hin. destruct Hin as [Hguard Hm].
  destruct (Hreach MaxK) as (k & kv & Hb).
  { simpl. destruct Hm as [-> | [-> | ->]]; auto. }
  exists {| K := k; Kv := kv;
            custom_mask_type := if causal then 1 else 0;
            has_attn_bias := bias; bias_has_grad := grad |}.
  rewrite batched_backward_fp16_unfold. simpl.
  rewrite Hguard, Hb. destruct causal; reflexivity.
Qed.

Lemma batched_backward_fp16_reaches_declared_witness :
  exists param,
    batched_backward_fp16 headdim_32_64_128 param Examples.stream0
    = emit (fp16_call no_causalmask_no_attnbias_maxk_64 param Examples.stream0).
Proof.
  apply (batched_backward_fp16_reaches_declared headdim_32_64_128 Examples.stream0
           no_causalmask_no_attnbias_maxk_64).
  - intros MaxK [<- | [<- | [<- | []]]].
    + exists 32, 32. reflexivity.
    + exists 64, 64. reflexivity.
    + exists 128, 128. reflexivity.
  - unfold no_causalmask_no_attnbias_maxk_64, extern_templates. simpl. auto 12.
Defined.

(** X3.  The bf16 dispatcher has no guard on the bias gradient: a struct
    with [bias_has_grad] set, no attention bias and a known mask type is
    dispatched by [batched_backward_bp16] to the instantiation without bias,
    while [batched_backward_fp16] refuses the same struct. *)
Theorem batched_backward_bp16_has_no_bias_grad_guard :
  forall headdim param stream,
    known_mask param.(custom_mask_type) ->
    param.(bias_has_grad) = true ->
    param.(has_attn_bias) = false ->
    batched_backward_bp16 param stream
    = emit (batched_backward_masktype_attnbias_dispatched
              bhalf_t param.(custom_mask_type) false param stream)
    /\ batched_backward_fp16 headdim param stream
       = throw (runtime_error bias_grad_what).
Proof.
  intros headdim param stream Hmask Hgrad Hbias.
  rewrite batched_backward_fp16_unfold, batched_backward_bp16_unfold.
  rewrite Hgrad, Hbias. simpl. split; [|reflexivity].
  unfold known_mask in Hmask.
  destruct Hmask as [E | [E | E]]; rewrite E; reflexivity.
Qed.

Lemma batched_backward_bp16_has_no_bias_grad_guard_witness :
  batched_backward_bp16
    {| K := 64; Kv := 64; custom_mask_type := 2;
       has_attn_bias := false; bias_has_grad := true |} Examples.stream0
  = emit (batched_backward_masktype_attnbias_dispatched bhalf_t 2 false
            {| K := 64; Kv := 64; custom_mask_type := 2;
               has_attn_bias := false; bias_has_grad := true |} Examples.stream0)
  /\ batched_backward_fp16 headdim_32_64_128
       {| K := 64; Kv := 64; custom_mask_type := 2;
          has_attn_bias := false; bias_has_grad := true |} Examples.stream0
     = throw (runtime_error bias_grad_what).
Proof.
  apply (batched_backward_bp16_has_no_bias_grad_guard headdim_32_64_128
           {| K := 64; Kv := 64; custom_mask_type := 2;
              has_attn_bias := false; bias_has_grad := true |} Examples.stream0).
  - unfold known_mask. simpl. auto.
  - reflexivity.
  - reflexivity.
Defined.

(** X4.  Each backward dispatcher either makes one call, on the struct and
    the stream it was given, and returns, or throws without having called
    anything; it never calls twice and never throws after a call. *)
Theorem backward_dispatch_one_call_or_throw :
  forall headdim param stream,
    let one_call_or_throw (run : Trace.M call unit) :=
      (exists c, run = emit c /\ call_args c = (param, stream))
      \/ (exists e, run = throw e) in
    one_call_or_throw (batched_backward_bp16 param stream)
    /\ one_call_or_throw (batched_backward_fp16 headdim param stream).
Proof.
  intros headdim param stream one_call_or_throw. subst one_call_or_throw. cbv beta.
  rewrite batched_backward_fp16_unfold, batched_backward_bp16_unfold.
  split.
  - destruct ((custom_mask_type param =? 0) || (custom_mask_type param =? 1)
              || (custom_mask_type param =? 2)).
    + left. eexists. split; reflexivity.
    + right. eexists. reflexivity.
  - destruct (has_attn_bias param || negb (bias_has_grad param));
      [|right; eexists; reflexivity].
    destruct (headdim (K param) (Kv param)); [|right; eexists; reflexivity].
    mask_cases param; simpl;
      first [left; eexists; split; reflexivity | right; eexists; reflexivity].
Qed.

End BatchedBackwardMore.

(** ** More on batched inference *)

Module BatchedInferMore.
Import Cxx Trace BatchedInfer BatchedInferFacts.
Import BatchedInfer.BatchedForwardParams.

Section WithDeviceOp.
Variable has_attn_bias : bool.
Context {ck : DeviceOp}.
Variable GetDeviceBuffer : Z -> ptr.

(** [Run] is [RunWithDeviceOp] at one of three instances. *)
Lemma Run_cases scalar_t custom_mask_type param stream :
  exists n,
    Run scalar_t custom_mask_type has_attn_bias GetDeviceBuffer param stream
    = RunWithDeviceOp has_attn_bias GetDeviceBuffer
        (DeviceOpInstanceTemp scalar_t custom_mask_type has_attn_bias n (n / 32) (n / 32))
        param stream
    /\ n = (if (param.(K) <=? 32) && (param.(Kv) <=? 32) then 32
            else if (param.(K) <=? 64) && (param.(Kv) <=? 64) then 64 else 128).
Proof.
  unfold Run.
  destruct ((K param <=? 32) && (Kv param <=? 32));
    [exists 32; split; reflexivity|].
  destruct ((K param <=? 64) && (Kv param <=? 64));
    [exists 64; split; reflexivity|].
  exists 128; split; reflexivity.
Qed.

(** X5.  The tile [Run] selects is the smallest of 32, 64, 128 that holds
    both head dimensions when one of them does; when [K] or [Kv] exceeds 128
    the 128-wide tile is selected all the same, narrower than the head
    dimension.  In every case the two per-wave counts are the tile width
    divided by 32, and the instance is the one of the struct's scalar type,
    mask type and bias flag. *)
Theorem Run_selects_least_tile :
  forall scalar_t custom_mask_type param stream,
    exists op,
      instantiated
        (events (Run scalar_t custom_mask_type has_attn_bias GetDeviceBuffer
                   param stream)) = [op]
      /\ (op.(DataType), op.(MaskingSpec), op.(HasAcc0Bias))
         = (scalar_t, custom_mask_type, has_attn_bias)
      /\ In op.(kGemm1NPerBlock) [32; 64; 128]
      /\ op.(kGemm1NPerBlock) = 32 * op.(kGemm1NXdlPerWave)
      /\ op.(kCShuffleNXdlPerWavePerShuffle) = op.(kGemm1NXdlPerWave)
      /\ (param.(K) <= op.(kGemm1NPerBlock) /\ param.(Kv) <= op.(kGemm1NPerBlock)
          <-> param.(K) <= 128 /\ param.(Kv) <= 128)
      /\ (forall m, In m [32; 64; 128] -> param.(K) <= m -> param.(Kv) <= m ->
            op.(kGemm1NPerBlock) <= m)
      /\ (128 < param.(K) \/ 128 < param.(Kv) -> op.(kGemm1NPerBlock) = 128).
Proof.
  intros scalar_t custom_mask_type param stream.
  destruct (Run_cases scalar_t custom_mask_type param stream) as (n & -> & Hn).
  eexists. split.
  { rewrite RunWithDeviceOp_cases. cbv zeta.
    destruct (IsSupportedArgument _ _); reflexivity. }
  simpl.
  destruct ((K param <=? 32) && (Kv param <=? 32)) eqn:H32;
    [|destruct ((K param <=? 64) && (Kv param <=? 64)) eqn:H64];
    subst n;
    rewrite ?andb_true_iff, ?andb_false_iff, ?Z.leb_le, ?Z.leb_gt in *;
    (split; [reflexivity|]);
    (split; [auto|]); (split; [reflexivity|]); (split; [reflexivity|]);
    (split; [lia|]);
    (split; [intros m [<- | [<- | [<- | []]]]; lia|]);
    lia.
Qed.

(** X6.  Besides Q and V, [RunWithDeviceOp] hands over: the five tensor
    pointers of the struct's Q, K, V and output; K lengths
    [{B, num_heads, N, K}] and output lengths [{B, num_heads, M, Kv}], both
    with strides permuted like Q's, to [{s[0], s[2], s[1], s[3]}]; with the
    bias template flag on, bias lengths [{B, num_heads, M, N}] with the
    struct's bias strides in their own order; and no second-gemm biases. *)
Theorem RunWithDeviceOp_marshals_rest :
  forall op param stream,
    forall arg,
      In arg (handed_over
                (events (RunWithDeviceOp has_attn_bias GetDeviceBuffer op param stream))) ->
      (arg.(p_a), arg.(p_b0), arg.(p_b1), arg.(p_c))
      = (param.(q_ptr), param.(k_ptr), param.(v_ptr), param.(out_ptr))
      /\ arg.(b0_gs_ns_ks_lengths)
         = [param.(B); param.(num_heads); param.(N); param.(K)]
      /\ arg.(b0_gs_ns_ks_strides)
         = [param.(k_strides).[0]; param.(k_strides).[2];
            param.(k_strides).[1]; param.(k_strides).[3]]
      /\ arg.(c_gs_ms_os_lengths)
         = [param.(B); param.(num_heads); param.(M); param.(Kv)]
      /\ arg.(c_gs_ms_os_strides)
         = [param.(out_strides).[0]; param.(out_strides).[2];
            param.(out_strides).[1]; param.(out_strides).[3]]
      /\ (has_attn_bias = true ->
            arg.(d_gs_ms_ns_lengths)
            = [param.(B); param.(num_heads); param.(M); param.(N)]
            /\ arg.(d_gs_ms_ns_strides)
               = [param.(attn_bias_strides).[0]; param.(attn_bias_strides).[1];
                  param.(attn_bias_strides).[2]; param.(attn_bias_strides).[3]])
      /\ (param.(BatchedForwardParams.has_attn_bias) = true ->
            arg.(p_acc0_bias) = param.(attn_bias_ptr))
      /\ arg.(p_acc1_biases) = []
      /\ arg.(acc1_biases_gs_ms_os_lengths) = []
      /\ arg.(acc1_biases_gs_ms_os_strides) = [].
Proof.
  intros op param stream arg.
  rewrite RunWithDeviceOp_cases. cbv zeta.
  intros Hin.
  assert (Harg : arg = marshal has_attn_bias param
                 \/ arg = checked_arg has_attn_bias GetDeviceBuffer op param).
  { destruct (IsSupportedArgument op _); unfold events, handed_over in Hin;
      simpl in Hin; intuition auto. }
  destruct Harg as [-> | ->]; unfold checked_arg; simpl;
    repeat apply conj; try reflexivity; intros Hb; rewrite Hb;
    try apply conj; reflexivity.
Qed.

(** X7.  [RunWithDeviceOp] asks for the workspace before it asks whether
    the argument is supported: the request for [GetWorkSpaceSize] bytes is
    in the trace in either case.  When it runs the invoker, that is the last
    thing it does, once, on the stream it was given, without timing, and on
    the marshaled argument with the workspace pointer set to that buffer. *)
Theorem RunWithDeviceOp_workspace_first :
  forall op param stream,
    let run := RunWithDeviceOp has_attn_bias GetDeviceBuffer op param stream in
    let arg := marshal has_attn_bias param in
    let size := GetWorkSpaceSize op arg in
    let prefix := [MakeArgumentPointer op arg; SimpleDeviceMem size] in
    events run = prefix /\ ~ returns run
    \/ events run
       = prefix ++ [invoker_Run op (SetWorkSpacePointer arg (GetDeviceBuffer size))
                      stream false]
       /\ returns run.
Proof.
  intros op param stream run arg size prefix. subst run arg size prefix.
  rewrite RunWithDeviceOp_cases. cbv zeta.
  fold (checked_arg has_attn_bias GetDeviceBuffer op param).
  destruct (IsSupportedArgument op _).
  - right. split; [reflexivity|]. exists tt. reflexivity.
  - left. split; [reflexivity|]. intros [a Ha]. discriminate Ha.
Qed.

(** X8.  The only error [Run] ends with is the selected instance's
    ["... does not support this problem"]; when it does, nothing was
    invoked. *)
Theorem Run_only_error :
  forall scalar_t custom_mask_type param stream e,
    let run :=
      Run scalar_t custom_mask_type has_attn_bias GetDeviceBuffer param stream in
    throws run e ->
    invoked (events run) = []
    /\ exists op,
         instantiated (events run) = [op]
         /\ IsSupportedArgument op (checked_arg has_attn_bias GetDeviceBuffer op param)
            = false
         /\ e = runtime_error
                  (GetTypeString op ++ " does not support this problem")%string.
Proof.
  intros scalar_t custom_mask_type param stream e run. subst run.
  destruct (Run_cases scalar_t custom_mask_type param stream) as (n & -> & _).
  rewrite RunWithDeviceOp_cases. cbv zeta.
  destruct (IsSupportedArgument _ _) eqn:Hs; unfold throws, result, events; simpl.
  - discriminate.
  - intros He. inversion He; subst e. split; [reflexivity|].
    eexists. split; [reflexivity|]. split; [exact Hs | reflexivity].
Qed.
End WithDeviceOp.

Lemma RunWithDeviceOp_marshals_rest_witness :
  (marshal true (Examples.infer_param 64 64 true)).(b0_gs_ns_ks_strides)
  = [21; 23; 22; 24]
  /\ (marshal true (Examples.infer_param 64 64 true)).(d_gs_ms_ns_strides)
     = [51; 52; 53; 54].
Proof.
  destruct (RunWithDeviceOp_marshals_rest (ck := Examples.toy_ck) true
              (fun _ => 4096%N) (DeviceOpInstanceTemp half_t 0 true 64 2 2)
              (Examples.infer_param 64 64 true) Examples.stream0
              (marshal true (Examples.infer_param 64 64 true)))
    as (_ & _ & Hk & _ & _ & Hd & _).
  - simpl. left. reflexivity.
  - split; [exact Hk|]. apply Hd. reflexivity.
Defined.

Lemma Run_only_error_witness :
  invoked
    (events (Run (ck := Examples.toy_ck) half_t 0 false (fun _ => 4096%N)
               (Examples.infer_param 256 256 false) Examples.stream0)) = []
  /\ exists op,
       instantiated
         (events (Run (ck := Examples.toy_ck) half_t 0 false (fun _ => 4096%N)
                    (Examples.infer_param 256 256 false) Examples.stream0)) = [op]
       /\ IsSupportedArgument (DeviceOp := Examples.toy_ck) op
            (checked_arg (ck := Examples.toy_ck) false (fun _ => 4096%N) op
               (Examples.infer_param 256 256 false)) = false
       /\ runtime_error
            "DeviceBatchedMultiheadAttentionInfer_Xdl_CShuffle does not support this problem"
          = runtime_error
              (GetTypeString (DeviceOp := Examples.toy_ck) op
               ++ " does not support this problem")%string.
Proof.
  apply (Run_only_error (ck := Examples.toy_ck) false (fun _ => 4096%N) half_t 0
           (Examples.infer_param 256 256 false) Examples.stream0).
  reflexivity.
Defined.

End BatchedInferMore.

(** ** More on the grouped dispatchers *)

Module GroupedMore.
Import Cxx Trace Switch FwdSetting Grouped Instantiations.

(** In every bucket of [ck_tiled_fmha_fwd_setting.h] the two block lengths
    the dispatchers test the head dimensions against are the bucket itself. *)
Lemma block_lengths_are_bucket (MaxK : MaxK_t) :
  kK0BlockLength MaxK = index_of MaxK /\ kN1 MaxK = index_of MaxK.
Proof. destruct MaxK; split; reflexivity. Qed.

Lemma index_of_nonzero (MaxK : MaxK_t) : index_of MaxK <> 0.
Proof. destruct MaxK; discriminate. Qed.

(** [int_div] has a quotient away from the two cases the division traps
    on, and then it is the truncated one. *)
Lemma int_div_defined (a b : Z) :
  b <> 0 -> ~ (a = - 2 ^ 31 /\ b = -1) -> int_div a b = Some (Z.quot a b).
Proof.
  intros Hb Hmin.
  pose proof (GroupedFacts.int_div_spec a b) as Hspec.
  destruct (int_div a b) as [q|].
  - destruct Hspec as (_ & _ & ->). reflexivity.
  - destruct Hspec as [Hz | Hm]; contradiction.
Qed.

(** What the inference entry point does. *)
Lemma infer_launch scalar_t has_causal_mask has_attn_bias MaxK param stream :
  run_grouped_infer_causalmask_attnbias_dispatched
    scalar_t has_causal_mask has_attn_bias MaxK param stream
  = match int_div param.(Hq) param.(Hkv) with
    | None => throw (fatal_signal "SIGFPE")
    | Some ratio =>
      emit (GroupedInfer.launch_kernel
            {| ScalarType := scalar_t;
               Shape := MaxK;
               kIsGroupMode := true;
               Mask := GenericAttentionMask
                         (has_causal_mask || (param.(window_size) >? 0))
                         (param.(window_size) >? 0);
               Traits :=
                 {| kPadSeqLenQ := true;
                    kPadSeqLenK := true;
                    kPadHeadDimQ := negb (Z.rem param.(K) (index_of MaxK) =? 0);
                    kPadHeadDimV := negb (Z.rem param.(Kv) (index_of MaxK) =? 0);
                    kHasBias := has_attn_bias;
                    kHasBiasGrad := false;
                    kStoreLSE := false;
                    kHasDropout := f32_gt_zero param.(dropout_prob);
                    kBlockPerCu := occupancy MaxK |};
               EpiloguePadM := true;
               EpiloguePadN := negb (Z.rem param.(Kv) (index_of MaxK) =? 0) |}
            stream false
            (param.(num_batches), param.(Hq), param.(max_seqlen_q), param.(Kv)) 0
            (GroupedInfer.MakeKargs param ratio))
    end.
Proof.
  unfold run_grouped_infer_causalmask_attnbias_dispatched, GroupedInfer.Run,
    GroupedInfer.RunWithKernel, BOOL_SWITCH_3, BOOL_SWITCH_2, BOOL_SWITCH.
  destruct (block_lengths_are_bucket MaxK) as [-> ->].
  destruct (int_div (Hq param) (Hkv param));
    destruct (window_size param >? 0);
    destruct (f32_gt_zero (dropout_prob param));
    destruct (negb (Z.rem (K param) (index_of MaxK) =? 0));
    destruct (negb (Z.rem (Kv param) (index_of MaxK) =? 0));
    reflexivity.
Qed.

(** What the forward entry point does. *)
Lemma forward_launch ScalarType_ kHasCausalMask kHasBias_ kHasDropout_ MaxK param stream :
  run_grouped_forward_causalmask_bias_dropout_dispatch
    ScalarType_ kHasCausalMask kHasBias_ kHasDropout_ MaxK param stream
  = match int_div param.(Hq) param.(Hkv) with
    | None => throw (fatal_signal "SIGFPE")
    | Some ratio =>
      emit (GroupedForward.launch_kernel
            {| ScalarType := ScalarType_;
               Shape := MaxK;
               kIsGroupMode := true;
               Mask := SimplifiedGenericAttentionMask
                         (kHasCausalMask || (param.(window_size) >? 0));
               Traits :=
                 {| kPadSeqLenQ := true;
                    kPadSeqLenK := true;
                    kPadHeadDimQ := negb (Z.rem param.(K) (index_of MaxK) =? 0);
                    kPadHeadDimV := negb (Z.rem param.(Kv) (index_of MaxK) =? 0);
                    kHasBias := kHasBias_;
                    kHasBiasGrad := false;
                    kStoreLSE := true;
                    kHasDropout := kHasDropout_;
                    kBlockPerCu := occupancy MaxK |};
               EpiloguePadM := true;
               EpiloguePadN := negb (Z.rem param.(Kv) (index_of MaxK) =? 0) |}
            stream false
            (param.(num_batches), param.(Hq), param.(max_seqlen_q), param.(Kv)) 0
            (GroupedForward.MakeKargs param ratio))
    end.
Proof.
  unfold run_grouped_forward_causalmask_bias_dropout_dispatch, GroupedForward.Run,
    GroupedForward.RunWithKernel, BOOL_SWITCH_2, BOOL_SWITCH.
  destruct (block_lengths_are_bucket MaxK) as [-> ->].
  destruct (int_div (Hq param) (Hkv param));
    destruct (window_size param >? 0);
    destruct (negb (Z.rem (K param) (index_of MaxK) =? 0));
    destruct (negb (Z.rem (Kv param) (index_of MaxK) =? 0));
    reflexivity.
Qed.

Lemma pad_flag_divides (x : Z) (MaxK : MaxK_t) :
  negb (Z.rem x (index_of MaxK) =? 0) = false <-> (index_of MaxK | x).
Proof.
  rewrite negb_false_iff, Z.eqb_eq.
  apply Z.rem_divide, index_of_nonzero.
Qed.

(** Both entry points at a struct, case by case on the head ratio. *)
Ltac grouped_cases param :=
  rewrite infer_launch, forward_launch;
  destruct (int_div (Hq param) (Hkv param)) as [ratio|];
  [|split; reflexivity].

(** X9.  Whenever the head ratio [Hq / Hkv] has a quotient, both grouped
    entry points launch one kernel each, which pads the head dimension of Q
    (and K) exactly when [K] is not a multiple of the bucket [MaxK], and
    that of V exactly when [Kv] is not; the sequence lengths are always
    padded, and the epilogue pads like the pipeline.  Without a quotient
    the division ends the process before any launch. *)
Theorem grouped_head_dim_padding :
  forall scalar_t has_causal_mask has_attn_bias kHasDropout_ MaxK param stream,
    let infer :=
      run_grouped_infer_causalmask_attnbias_dispatched
        scalar_t has_causal_mask has_attn_bias MaxK param stream in
    let forward :=
      run_grouped_forward_causalmask_bias_dropout_dispatch
        scalar_t has_causal_mask has_attn_bias kHasDropout_ MaxK param stream in
    match int_div param.(Hq) param.(Hkv) with
    | Some _ =>
        exists ki kf,
          infer_kernels (events infer) = [ki]
          /\ forward_kernels (events forward) = [kf]
          /\ forall k, k = ki \/ k = kf ->
               (k.(Traits).(kPadHeadDimQ) = false <-> (index_of MaxK | param.(K)))
               /\ (k.(Traits).(kPadHeadDimV) = false <-> (index_of MaxK | param.(Kv)))
               /\ k.(Traits).(kPadSeqLenQ) = true
               /\ k.(Traits).(kPadSeqLenK) = true
               /\ k.(EpiloguePadM) = true
               /\ k.(EpiloguePadN) = k.(Traits).(kPadHeadDimV)
    | None =>
        infer = throw (fatal_signal "SIGFPE")
        /\ forward = throw (fatal_signal "SIGFPE")
    end.
Proof.
  intros scalar_t has_causal_mask has_attn_bias kHasDropout_ MaxK param stream
    infer forward.
  subst infer forward. grouped_cases param.
  eexists. eexists. split; [reflexivity|]. split; [reflexivity|].
  intros k [-> | ->]; simpl; repeat apply conj; try reflexivity;
    apply pad_flag_divides.
Qed.

(** X10.  Whenever the head ratio has a quotient, the inference entry
    point launches with [GenericAttentionMask], the local flag on exactly
    when [window_size > 0] and never local without masking; masking is off
    only without causal flag and without window.  The forward entry point
    with the same causal flag launches with [SimplifiedGenericAttentionMask]
    and masks in exactly the same cases.  Without a quotient neither
    launches. *)
Theorem grouped_masking_agrees :
  forall scalar_t has_causal_mask has_attn_bias kHasDropout_ MaxK param stream,
    let infer :=
      run_grouped_infer_causalmask_attnbias_dispatched
        scalar_t has_causal_mask has_attn_bias MaxK param stream in
    let forward :=
      run_grouped_forward_causalmask_bias_dropout_dispatch
        scalar_t has_causal_mask has_attn_bias kHasDropout_ MaxK param stream in
    match int_div param.(Hq) param.(Hkv) with
    | Some _ =>
        exists masking local,
          map Mask (infer_kernels (events infer)) = [GenericAttentionMask masking local]
          /\ map Mask (forward_kernels (events forward))
             = [SimplifiedGenericAttentionMask masking]
          /\ (local = true <-> param.(window_size) > 0)
          /\ (local = true -> masking = true)
          /\ (masking = false
              <-> has_causal_mask = false /\ param.(window_size) <= 0)
    | None =>
        infer = throw (fatal_signal "SIGFPE")
        /\ forward = throw (fatal_signal "SIGFPE")
    end.
Proof.
  intros scalar_t has_causal_mask has_attn_bias kHasDropout_ MaxK param stream
    infer forward.
  subst infer forward. grouped_cases param.
  eexists. eexists. split; [reflexivity|]. split; [reflexivity|].
  destruct (Z.gtb_spec (window_size param) 0) as [Hw | Hw];
    destruct has_causal_mask; simpl;
    intuition (try discriminate; try lia).
Qed.

(** X11.  Whenever the head ratio has a quotient, each entry point makes
    one launch, on the stream it was given, without timing, over the grid
    arguments [(num_batches, Hq, max_seqlen_q, Kv)] and with no dynamic
    shared memory.  The kernel's [kStoreLSE] flag and the LSE arguments go
    together: the inference launch has the flag off, a null LSE pointer and
    zero LSE strides; the forward launch has the flag on, the struct's
    [logsumexp_ptr] and the struct's [lse_strides] (head stride
    [lse_strides[1]], batch stride [lse_strides[0]]).  Neither stores
    random values: [rand_val_ptr] is null, its strides are zero and
    [is_store_randval] is false.  Without a quotient neither launches. *)
Theorem grouped_lse_and_randval :
  forall scalar_t has_causal_mask has_attn_bias kHasDropout_ MaxK param stream,
    let infer :=
      run_grouped_infer_causalmask_attnbias_dispatched
        scalar_t has_causal_mask has_attn_bias MaxK param stream in
    let forward :=
      run_grouped_forward_causalmask_bias_dropout_dispatch
        scalar_t has_causal_mask has_attn_bias kHasDropout_ MaxK param stream in
    let grid :=
      (param.(num_batches), param.(Hq), param.(max_seqlen_q), param.(Kv)) in
    match int_div param.(Hq) param.(Hkv) with
    | Some _ =>
        exists ki ai kf af,
          infer = emit (GroupedInfer.launch_kernel ki stream false grid 0 ai)
          /\ forward = emit (GroupedForward.launch_kernel kf stream false grid 0 af)
          /\ ki.(Traits).(kStoreLSE) = false
          /\ (ai.(GroupedInfer.Kargs.lse_ptr), ai.(GroupedInfer.Kargs.nhead_stride_lse),
              ai.(GroupedInfer.Kargs.batch_stride_lse)) = (nullptr, 0, 0)
          /\ kf.(Traits).(kStoreLSE) = true
          /\ (af.(GroupedForward.Kargs.lse_ptr),
              af.(GroupedForward.Kargs.nhead_stride_lse),
              af.(GroupedForward.Kargs.batch_stride_lse))
             = (param.(logsumexp_ptr), param.(lse_strides).[1], param.(lse_strides).[0])
          /\ (ai.(GroupedInfer.Kargs.rand_val_ptr), ai.(GroupedInfer.Kargs.stride_randval),
              ai.(GroupedInfer.Kargs.nhead_stride_randval),
              ai.(GroupedInfer.Kargs.is_store_randval)) = (nullptr, 0, 0, false)
          /\ (af.(GroupedForward.Kargs.rand_val_ptr),
              af.(GroupedForward.Kargs.stride_randval),
              af.(GroupedForward.Kargs.nhead_stride_randval),
              af.(GroupedForward.Kargs.is_store_randval)) = (nullptr, 0, 0, false)
          /\ ki.(Traits).(kHasBiasGrad) = false
          /\ kf.(Traits).(kHasBiasGrad) = false
    | None =>
        infer = throw (fatal_signal "SIGFPE")
        /\ forward = throw (fatal_signal "SIGFPE")
    end.
Proof.
  intros scalar_t has_causal_mask has_attn_bias kHasDropout_ MaxK param stream
    infer forward grid.
  subst infer forward grid. grouped_cases param.
  do 4 eexists. split; [reflexivity|]. split; [reflexivity|].
  repeat apply conj; reflexivity.
Qed.

(** X12.  Whenever the head ratio [Hq / Hkv] has a quotient, the inference
    and the forward entry point pass the same tensors and geometry of the
    struct to the kernel, unchanged: the Q, K, V, bias and output pointers,
    the three sequence-offset pointers, both head dimensions, the head
    count, that quotient as head ratio, the scale, the sequence strides
    [q_strides[0]], [k_strides[0]], [v_strides[0]], [attn_bias_strides[2]],
    [out_strides[0]], the head strides [q_strides[1]], [k_strides[1]],
    [v_strides[1]], [attn_bias_strides[1]], [out_strides[1]], the mask type,
    the drop-out probability and 1.0f for both descale factors; the
    inference launch also gets [window_size] itself.  Both launch once, at
    the same place.  Without a quotient neither launches. *)
Theorem grouped_infer_forward_same_geometry :
  forall scalar_t has_causal_mask has_attn_bias kHasDropout_ MaxK param stream,
    let infer :=
      run_grouped_infer_causalmask_attnbias_dispatched
        scalar_t has_causal_mask has_attn_bias MaxK param stream in
    let forward :=
      run_grouped_forward_causalmask_bias_dropout_dispatch
        scalar_t has_causal_mask has_attn_bias kHasDropout_ MaxK param stream in
    match int_div param.(Hq) param.(Hkv) with
    | Some ratio =>
        exists ai af,
          infer_kargs (events infer) = [ai]
          /\ forward_kargs (events forward) = [af]
          /\ infer_launch_sites (events infer) = forward_launch_sites (events forward)
          /\ infer_launch_sites (events infer)
             = [(stream, false,
                 (param.(num_batches), param.(Hq), param.(max_seqlen_q), param.(Kv)),
                 0)]
          /\ ratio = Z.quot param.(Hq) param.(Hkv)
          /\ (ai.(GroupedInfer.Kargs.q_ptr), ai.(GroupedInfer.Kargs.k_ptr),
              ai.(GroupedInfer.Kargs.v_ptr), ai.(GroupedInfer.Kargs.bias_ptr),
              ai.(GroupedInfer.Kargs.o_ptr))
             = (param.(q_ptr), param.(k_ptr), param.(v_ptr), param.(attn_bias_ptr),
                param.(out_ptr))
          /\ (af.(GroupedForward.Kargs.q_ptr), af.(GroupedForward.Kargs.k_ptr),
              af.(GroupedForward.Kargs.v_ptr), af.(GroupedForward.Kargs.bias_ptr),
              af.(GroupedForward.Kargs.o_ptr))
             = (param.(q_ptr), param.(k_ptr), param.(v_ptr), param.(attn_bias_ptr),
                param.(out_ptr))
          /\ (ai.(GroupedInfer.Kargs.seqstart_q_ptr),
              ai.(GroupedInfer.Kargs.seqstart_k_ptr),
              ai.(GroupedInfer.Kargs.seqlen_k_ptr))
             = (param.(seqstart_q_dev_ptr), param.(seqstart_k_dev_ptr),
                param.(seqlen_k_dev_ptr))
          /\ (af.(GroupedForward.Kargs.seqstart_q_ptr),
              af.(GroupedForward.Kargs.seqstart_k_ptr),
              af.(GroupedForward.Kargs.seqlen_k_ptr))
             = (param.(seqstart_q_dev_ptr), param.(seqstart_k_dev_ptr),
                param.(seqlen_k_dev_ptr))
          /\ (ai.(GroupedInfer.Kargs.hdim_q), ai.(GroupedInfer.Kargs.hdim_v),
              ai.(GroupedInfer.Kargs.nhead_q), ai.(GroupedInfer.Kargs.nhead_ratio_qk),
              ai.(GroupedInfer.Kargs.scale))
             = (param.(K), param.(Kv), param.(Hq), ratio, param.(scale))
          /\ (af.(GroupedForward.Kargs.hdim_q), af.(GroupedForward.Kargs.hdim_v),
              af.(GroupedForward.Kargs.nhead_q),
              af.(GroupedForward.Kargs.nhead_ratio_qk),
              af.(GroupedForward.Kargs.scale))
             = (param.(K), param.(Kv), param.(Hq), ratio, param.(scale))
          /\ (ai.(GroupedInfer.Kargs.stride_q), ai.(GroupedInfer.Kargs.stride_k),
              ai.(GroupedInfer.Kargs.stride_v), ai.(GroupedInfer.Kargs.stride_bias),
              ai.(GroupedInfer.Kargs.stride_o))
             = (param.(q_strides).[0], param.(k_strides).[0], param.(v_strides).[0],
                param.(attn_bias_strides).[2], param.(out_strides).[0])
          /\ (af.(GroupedForward.Kargs.stride_q), af.(GroupedForward.Kargs.stride_k),
              af.(GroupedForward.Kargs.stride_v), af.(GroupedForward.Kargs.stride_bias),
              af.(GroupedForward.Kargs.stride_o))
             = (param.(q_strides).[0], param.(k_strides).[0], param.(v_strides).[0],
                param.(attn_bias_strides).[2], param.(out_strides).[0])
          /\ (ai.(GroupedInfer.Kargs.nhead_stride_q),
              ai.(GroupedInfer.Kargs.nhead_stride_k),
              ai.(GroupedInfer.Kargs.nhead_stride_v),
              ai.(GroupedInfer.Kargs.nhead_stride_bias),
              ai.(GroupedInfer.Kargs.nhead_stride_o))
             = (param.(q_strides).[1], param.(k_strides).[1], param.(v_strides).[1],
                param.(attn_bias_strides).[1], param.(out_strides).[1])
          /\ (af.(GroupedForward.Kargs.nhead_stride_q),
              af.(GroupedForward.Kargs.nhead_stride_k),
              af.(GroupedForward.Kargs.nhead_stride_v),
              af.(GroupedForward.Kargs.nhead_stride_bias),
              af.(GroupedForward.Kargs.nhead_stride_o))
             = (param.(q_strides).[1], param.(k_strides).[1], param.(v_strides).[1],
                param.(attn_bias_strides).[1], param.(out_strides).[1])
          /\ (ai.(GroupedInfer.Kargs.mask_type), ai.(GroupedInfer.Kargs.window_size))
             = (GroupedInfer.static_cast_CausalMaskType param.(custom_mask_type),
                param.(window_size))
          /\ af.(GroupedForward.Kargs.mask_type) = param.(custom_mask_type)
          /\ (ai.(GroupedInfer.Kargs.p_drop), ai.(GroupedInfer.Kargs.descale_qk),
              ai.(GroupedInfer.Kargs.descale_sv))
             = (param.(dropout_prob), 0x3F800000, 0x3F800000)
          /\ (af.(GroupedForward.Kargs.p_drop), af.(GroupedForward.Kargs.descale_qk),
              af.(GroupedForward.Kargs.descale_sv))
             = (param.(dropout_prob), 0x3F800000, 0x3F800000)
    | None =>
        infer = throw (fatal_signal "SIGFPE")
        /\ forward = throw (fatal_signal "SIGFPE")
    end.
Proof.
  intros scalar_t has_causal_mask has_attn_bias kHasDropout_ MaxK param stream
    infer forward.
  subst infer forward.
  pose proof (GroupedFacts.int_div_spec (Hq param) (Hkv param)) as Hspec.
  grouped_cases param.
  destruct Hspec as (_ & _ & Hratio).
  do 2 eexists. split; [reflexivity|]. split; [reflexivity|].
  repeat apply conj; try reflexivity. exact Hratio.
Qed.

(** X13.  Whenever the head ratio has a quotient, both entry points launch
    one group-mode kernel of the scalar type and bucket they were
    instantiated at, with the bias flag of the instantiation and at 3
    blocks per compute unit for bucket 64, 1 for bucket 256 and 2
    otherwise.  Whether the kernel has the drop-out pipeline: the inference
    entry point decides it from the struct, by [dropout_prob > 0.0f] (as
    bit patterns: above +0 and at most +infinity, so neither zero, negative
    nor NaN selects it); the forward entry point takes it from its template
    argument alone.  Both hand [dropout_prob] itself to the kernel whatever
    was selected.  Without a quotient neither launches. *)
Theorem grouped_dropout_selection :
  forall scalar_t has_causal_mask has_attn_bias kHasDropout_ MaxK param stream,
    let infer :=
      run_grouped_infer_causalmask_attnbias_dispatched
        scalar_t has_causal_mask has_attn_bias MaxK param stream in
    let forward :=
      run_grouped_forward_causalmask_bias_dropout_dispatch
        scalar_t has_causal_mask has_attn_bias kHasDropout_ MaxK param stream in
    let grid :=
      (param.(num_batches), param.(Hq), param.(max_seqlen_q), param.(Kv)) in
    let blocks_per_cu :=
      match MaxK with MaxK_64 => 3 | MaxK_256 => 1 | _ => 2 end in
    match int_div param.(Hq) param.(Hkv) with
    | Some _ =>
        exists ki ai kf af,
          infer = emit (GroupedInfer.launch_kernel ki stream false grid 0 ai)
          /\ forward = emit (GroupedForward.launch_kernel kf stream false grid 0 af)
          /\ (ki.(Traits).(kHasDropout) = true
              <-> 0 < param.(dropout_prob) <= 0x7F800000)
          /\ kf.(Traits).(kHasDropout) = kHasDropout_
          /\ ai.(GroupedInfer.Kargs.p_drop) = param.(dropout_prob)
          /\ af.(GroupedForward.Kargs.p_drop) = param.(dropout_prob)
          /\ (ki.(ScalarType), ki.(Shape), ki.(kIsGroupMode), ki.(Traits).(kHasBias),
              ki.(Traits).(kBlockPerCu))
             = (scalar_t, MaxK, true, has_attn_bias, blocks_per_cu)
          /\ (kf.(ScalarType), kf.(Shape), kf.(kIsGroupMode), kf.(Traits).(kHasBias),
              kf.(Traits).(kBlockPerCu))
             = (scalar_t, MaxK, true, has_attn_bias, blocks_per_cu)
    | None =>
        infer = throw (fatal_signal "SIGFPE")
        /\ forward = throw (fatal_signal "SIGFPE")
    end.
Proof.
  intros scalar_t has_causal_mask has_attn_bias kHasDropout_ MaxK param stream
    infer forward grid blocks_per_cu.
  subst infer forward grid blocks_per_cu. grouped_cases param.
  do 4 eexists. split; [reflexivity|]. split; [reflexivity|].
  simpl. repeat apply conj; try reflexivity;
    try (unfold f32_gt_zero; rewrite andb_true_iff, Z.ltb_lt, Z.leb_le; tauto);
    destruct MaxK; reflexivity.
Qed.

(** X14.  When the number of key/value heads divides the number of query
    heads and the division [Hq / Hkv] is defined ([Hkv] is not zero, and it
    is not [INT_MIN / -1]), both entry points launch, and the head ratio
    they pass is exact: multiplied by [Hkv] it gives [Hq] back
    (grouped-query attention); with as many key/value heads as query heads
    it is 1. *)
Theorem grouped_head_ratio_exact :
  forall scalar_t has_causal_mask has_attn_bias kHasDropout_ MaxK param stream,
    param.(Hkv) <> 0 ->
    ~ (param.(Hq) = - 2 ^ 31 /\ param.(Hkv) = -1) ->
    (param.(Hkv) | param.(Hq)) ->
    exists ai af,
      infer_kargs
        (events (run_grouped_infer_causalmask_attnbias_dispatched
                   scalar_t has_causal_mask has_attn_bias MaxK param stream)) = [ai]
      /\ forward_kargs
           (events (run_grouped_forward_causalmask_bias_dropout_dispatch
                      scalar_t has_causal_mask has_attn_bias kHasDropout_ MaxK
                      param stream)) = [af]
      /\ ai.(GroupedInfer.Kargs.nhead_ratio_qk) * param.(Hkv) = param.(Hq)
      /\ af.(GroupedForward.Kargs.nhead_ratio_qk) * param.(Hkv) = param.(Hq)
      /\ (param.(Hq) = param.(Hkv) ->
            ai.(GroupedInfer.Kargs.nhead_ratio_qk) = 1
            /\ af.(GroupedForward.Kargs.nhead_ratio_qk) = 1).
Proof.
  intros scalar_t has_causal_mask has_attn_bias kHasDropout_ MaxK param stream
    Hnz Hmin [q Hq_].
  rewrite infer_launch, forward_launch.
  rewrite (int_div_defined _ _ Hnz Hmin).
  do 2 eexists. split; [reflexivity|]. split; [reflexivity|].
  simpl. rewrite Hq_, Z.quot_mul by exact Hnz.
  repeat apply conj; try reflexivity.
  intros Heq.
  assert (Hone : q = 1) by (apply (Z.mul_cancel_r q 1 (Hkv param) Hnz); lia).
  split; exact Hone.
Qed.

Lemma grouped_head_ratio_exact_witness :
  exists ai af,
    infer_kargs
      (events (run_grouped_infer_causalmask_attnbias_dispatched
                 half_t false false MaxK_128 (Examples.grouped_param 0 0)
                 Examples.stream0)) = [ai]
    /\ forward_kargs
         (events (run_grouped_forward_causalmask_bias_dropout_dispatch
                    half_t false false true MaxK_128 (Examples.grouped_param 0 0)
                    Examples.stream0)) = [af]
    /\ ai.(GroupedInfer.Kargs.nhead_ratio_qk) * 8 = 8
    /\ af.(GroupedForward.Kargs.nhead_ratio_qk) * 8 = 8.
Proof.
  destruct (grouped_head_ratio_exact half_t false false true MaxK_128
              (Examples.grouped_param 0 0) Examples.stream0)
    as (ai & af & Hi & Hf & Hri & Hrf & _).
  - discriminate.
  - intros [Hmin _]. discriminate Hmin.
  - exists 1. reflexivity.
  - exists ai, af. repeat split; assumption.
Defined.

(** X15.  The explicit instantiation
    [<ck::half_t, true, true, false, 128>] of the forward entry point:
    whenever the head ratio has a quotient it launches the fp16 group-mode
    kernel over the block tile [128, 128, 32, 128, 32, 128] at two blocks
    per compute unit, always masked (whatever the window), with bias,
    storing LSE, and without the drop-out pipeline even when the struct's
    [dropout_prob] is positive; without a quotient it does not launch. *)
Theorem grouped_forward_instance_maxk_128 :
  forall param stream,
    let run :=
      fmha_grouped_forward_fp16_has_causalmask_has_bias_no_dropout_maxk_128
        param stream in
    match int_div param.(Hq) param.(Hkv) with
    | Some _ =>
        exists k,
          forward_kernels (events run) = [k]
          /\ result run = inr tt
          /\ k.(ScalarType) = half_t
          /\ k.(kIsGroupMode) = true
          /\ (FmhaFwdBlockTile k.(Shape)).(type) = [128; 128; 32; 128; 32; 128]
          /\ (FmhaFwdBlockTile k.(Shape)).(gemm0_warps) = [4; 1; 1]
          /\ k.(Traits).(kBlockPerCu) = 2
          /\ is_masking k.(Mask) = true
          /\ k.(Traits).(kHasBias) = true
          /\ k.(Traits).(kStoreLSE) = true
          /\ k.(Traits).(kHasDropout) = false
          /\ (k.(Traits).(kPadHeadDimQ) = false <-> (128 | param.(K)))
    | None => run = throw (fatal_signal "SIGFPE")
    end.
Proof.
  intros param stream run. subst run.
  unfold fmha_grouped_forward_fp16_has_causalmask_has_bias_no_dropout_maxk_128.
  rewrite forward_launch.
  destruct (int_div (Hq param) (Hkv param)) as [ratio|]; [|reflexivity].
  eexists. split; [reflexivity|]. simpl.
  repeat apply conj; try reflexivity;
    apply (pad_flag_divides (K param) MaxK_128).
Qed.

End GroupedMore.

(** ** More on the random integers *)

Module RandUniformMore.
Import Cxx Trace RandUniform RandUniformFacts.

Section WithFramework.
Context `{fw : Framework}.
Variable philox : Z * Z -> list Z -> list Z -> Z.

(** X16.  A pattern of fewer than four dimensions is refused by the
    framework's [size] before anything has happened: the generator is not
    asked, nothing is allocated and nothing is launched. *)
Theorem rand_uniform_int_needs_four_dims :
  forall dropout_prob out_pattern host,
    (List.length out_pattern.(sizes) < 4)%nat ->
    let run := rand_uniform_int philox dropout_prob out_pattern host in
    events run = [] /\ throws run (foreign_error "at::Tensor::size").
Proof.
  intros dropout_prob out_pattern host Hlen run. subst run.
  rewrite rand_uniform_int_short by exact Hlen.
  split; reflexivity.
Qed.

(** X17.  The generator is asked before the output is allocated: when one
    of the four sizes comes out negative as an [int], [at::empty] refuses
    the shape, yet the generator has already been asked for its increment;
    no kernel is launched and the stream is not synchronized. *)
Theorem rand_uniform_int_asks_generator_first :
  forall dropout_prob out_pattern host s0 s1 s2 s3 more,
    out_pattern.(sizes) = s0 :: s1 :: s2 :: s3 :: more ->
    (to_int s0 < 0 \/ to_int s1 < 0 \/ to_int s2 < 0 \/ to_int s3 < 0) ->
    let run := rand_uniform_int philox dropout_prob out_pattern host in
    let shape := [to_int s0; to_int s1; to_int s2; to_int s3] in
    exists increment,
      events run
      = [lock_philox_cuda_state host.(getDefaultCUDAGenerator) increment;
         at_empty shape (with_dtype out_pattern.(options) Int)]
      /\ throws run (foreign_error "at::empty")
      /\ launched_kargs (events run) = [].
Proof.
  intros dropout_prob out_pattern host s0 s1 s2 s3 more Hs Hneg run shape.
  subst run shape.
  rewrite (rand_uniform_int_cases _ _ _ _ s0 s1 s2 s3 more Hs). cbv zeta.
  assert (Hex : existsb (fun z => z <? 0)
                  [to_int s0; to_int s1; to_int s2; to_int s3] = true).
  { simpl. rewrite !orb_true_iff, !Z.ltb_lt. tauto. }
  rewrite Hex. eexists. split; [reflexivity|]. split; reflexivity.
Qed.


(** X19.  An empty pattern is not short-cut: with a zero among four sizes
    that fit in an [int], the generator is asked for an increment of 0, the
    empty output is allocated, and the kernel is launched and waited for as
    for any other shape. *)
Theorem rand_uniform_int_empty_pattern :
  forall dropout_prob out_pattern host s0 s1 s2 s3,
    out_pattern.(sizes) = [s0; s1; s2; s3] ->
    0 <= s0 < 2 ^ 31 -> 0 <= s1 < 2 ^ 31 ->
    0 <= s2 < 2 ^ 31 -> 0 <= s3 < 2 ^ 31 ->
    s0 = 0 \/ s1 = 0 \/ s2 = 0 \/ s3 = 0 ->
    let run := rand_uniform_int philox dropout_prob out_pattern host in
    requested_increments (events run) = [0]
    /\ List.length (launched_kargs (events run)) = 1%nat
    /\ In (hipStreamSynchronize host.(getCurrentHIPStream)) (events run)
    /\ exists randvals, result run = inr randvals /\ randvals.(sizes) = [s0; s1; s2; s3].
Proof.
  intros dropout_prob out_pattern host s0 s1 s2 s3 Hs H0 H1 H2 H3 Hzero run.
  subst run.
  rewrite (rand_uniform_int_cases _ _ _ _ s0 s1 s2 s3 [] Hs). cbv zeta.
  rewrite int_mul_product.
  rewrite !(to_int_small s0), !(to_int_small s1), !(to_int_small s2),
    !(to_int_small s3) by assumption.
  assert (Hneg : existsb (fun z => z <? 0) [s0; s1; s2; s3] = false).
  { simpl. repeat (rewrite (proj2 (Z.ltb_ge _ 0)) by lia). reflexivity. }
  rewrite Hneg.
  assert (Hprod : s0 * s1 * s2 * s3 = 0).
  { destruct Hzero as [-> | [-> | [-> | ->]]]; ring. }
  rewrite Hprod.
  split; [reflexivity|]. split; [reflexivity|].
  split; [simpl; auto|].
  eexists. split; reflexivity.
Qed.

(** X20.  The call reads the pattern only for its first four sizes and its
    options: two patterns that agree on these (whatever their further
    dimensions, strides, storage and elements), with any two drop-out
    probabilities, give the same trace and the same result on the same
    host. *)
Theorem rand_uniform_int_reads_shape_only :
  forall dropout_prob1 dropout_prob2 out_pattern1 out_pattern2 host,
    firstn 4 out_pattern1.(sizes) = firstn 4 out_pattern2.(sizes) ->
    out_pattern1.(options) = out_pattern2.(options) ->
    rand_uniform_int philox dropout_prob1 out_pattern1 host
    = rand_uniform_int philox dropout_prob2 out_pattern2 host.
Proof.
  intros d1 d2 t1 t2 host Hfirst Hopts.
  destruct (sizes t1) as [|s0 [|s1 [|s2 [|s3 more1]]]] eqn:Hs1;
    destruct (sizes t2) as [|r0 [|r1 [|r2 [|r3 more2]]]] eqn:Hs2;
    simpl in Hfirst; try discriminate Hfirst;
    try (rewrite !rand_uniform_int_short by (rewrite ?Hs1, ?Hs2; simpl; lia);
         reflexivity).
  inversion Hfirst; subst r0 r1 r2 r3.
  rewrite (rand_uniform_int_cases _ _ _ _ s0 s1 s2 s3 more1 Hs1).
  rewrite (rand_uniform_int_cases _ _ _ _ s0 s1 s2 s3 more2 Hs2).
  rewrite Hopts. reflexivity.
Qed.
End WithFramework.

Lemma rand_uniform_int_needs_four_dims_witness :
  events (rand_uniform_int (fw := Examples.torch) Examples.toy_philox 0
            (Examples.pattern [512; 256] Half) (Examples.host_at 4096%N 0%N)) = []
  /\ throws (rand_uniform_int (fw := Examples.torch) Examples.toy_philox 0
               (Examples.pattern [512; 256] Half) (Examples.host_at 4096%N 0%N))
            (foreign_error "at::Tensor::size").
Proof.
  apply (rand_uniform_int_needs_four_dims (fw := Examples.torch) Examples.toy_philox 0
           (Examples.pattern [512; 256] Half) (Examples.host_at 4096%N 0%N)).
  simpl. lia.
Defined.

Lemma rand_uniform_int_asks_generator_first_witness :
  exists increment,
    events (rand_uniform_int (fw := Examples.torch) Examples.toy_philox 0
              (Examples.pattern [1; 1; 1; 2147483648] Half)
              (Examples.host_at 4096%N 0%N))
    = [lock_philox_cuda_state (H := Examples.torch) (42, 1000) increment;
       at_empty (H := Examples.torch) [1; 1; 1; -2147483648]
         {| dtype := Int; device := 0 |}]
    /\ throws (rand_uniform_int (fw := Examples.torch) Examples.toy_philox 0
                 (Examples.pattern [1; 1; 1; 2147483648] Half)
                 (Examples.host_at 4096%N 0%N))
              (foreign_error "at::empty")
    /\ launched_kargs
         (events (rand_uniform_int (fw := Examples.torch) Examples.toy_philox 0
                    (Examples.pattern [1; 1; 1; 2147483648] Half)
                    (Examples.host_at 4096%N 0%N))) = [].
Proof.
  apply (rand_uniform_int_asks_generator_first (fw := Examples.torch)
           Examples.toy_philox 0 (Examples.pattern [1; 1; 1; 2147483648] Half)
           (Examples.host_at 4096%N 0%N) 1 1 1 2147483648 []).
  - reflexivity.
  - right. right. right. vm_compute. reflexivity.
Defined.


Lemma rand_uniform_int_empty_pattern_witness :
  requested_increments
    (events (rand_uniform_int (fw := Examples.torch) Examples.toy_philox 0
               (Examples.pattern [2; 8; 0; 256] Half) (Examples.host_at 4096%N 0%N)))
  = [0].
Proof.
  apply (rand_uniform_int_empty_pattern (fw := Examples.torch) Examples.toy_philox 0
           (Examples.pattern [2; 8; 0; 256] Half) (Examples.host_at 4096%N 0%N)
           2 8 0 256 eq_refl ltac:(lia) ltac:(lia) ltac:(lia) ltac:(lia)).
  right. right. left. reflexivity.
Defined.

Lemma rand_uniform_int_reads_shape_only_witness :
  rand_uniform_int (fw := Examples.torch) Examples.toy_philox 0
    (Examples.pattern [2; 8; 512; 256; 3] Half) (Examples.host_at 4096%N 0%N)
  = rand_uniform_int (fw := Examples.torch) Examples.toy_philox 1036831949
      (Examples.pattern [2; 8; 512; 256] Half) (Examples.host_at 4096%N 0%N).
Proof.
  apply (rand_uniform_int_reads_shape_only (fw := Examples.torch) Examples.toy_philox
           0 1036831949 (Examples.pattern [2; 8; 512; 256; 3] Half)
           (Examples.pattern [2; 8; 512; 256] Half) (Examples.host_at 4096%N 0%N)).
  - reflexivity.
  - reflexivity.
Defined.

End RandUniformMore.

(** ** The tile table *)

Module SettingMore.
Import Cxx FwdSetting.

(** X21.  In every bucket of [ck_tiled_fmha_fwd_setting.h] the block tile
    has six entries; the two head-dimension entries ([kN1] and
    [kK0BlockLength]) are the bucket itself; the tile covers 128 query rows,
    which the warps of either gemm, 32 rows each, divide evenly; both gemms
    use the same warps; and the two unroll lengths divide what they step
    through (the first the bucket, the second the key tile). *)
Theorem block_tiles_fit_bucket :
  forall MaxK,
    let tile := FmhaFwdBlockTile MaxK in
    List.length tile.(type) = 6%nat
    /\ kN1 MaxK = index_of MaxK
    /\ kK0BlockLength MaxK = index_of MaxK
    /\ tile.(type).[0] = 128
    /\ tile.(gemm0_warps) = tile.(gemm1_warps)
    /\ (tile.(gemm0_warps).[0] * FmhaFwdWarpTile.[0] | tile.(type).[0])
    /\ (tile.(type).[2] | index_of MaxK)
    /\ (tile.(type).[4] | tile.(type).[1]).
Proof.
  intros MaxK tile. subst tile.
  destruct MaxK; cbn;
    repeat apply conj; try reflexivity;
    first [exists 1; reflexivity | exists 2; reflexivity | exists 4; reflexivity
          | exists 8; reflexivity].
Qed.

End SettingMore.
